(** * Bulk Image Formatter: a shallow embedding of [process_image] and
      [batch_process_images], and the properties of the centre crop, the
      file selection, the output naming and the per-file error isolation. *)

From Stdlib Require Import ZArith List String Ascii Bool Lia.
From Stdlib Require Import DecimalString.
Import ListNotations.

Local Open Scope string_scope.
Local Open Scope Z_scope.

(** ** Python strings

    A [str] is modelled by [string]; the operations below are the ones the
    program applies to file names. *)

(** [len(s)] as a Python integer. *)
Definition len (s : string) : Z := Z.of_nat (String.length s).

(** The slice [s[:n]] for [0 <= n]. *)
Fixpoint take (n : nat) (s : string) : string :=
  match n, s with
  | O, _ => EmptyString
  | S _, EmptyString => EmptyString
  | S n', String c s' => String c (take n' s')
  end.

(** The slice [s[n:]] for [0 <= n]. *)
Fixpoint drop (n : nat) (s : string) : string :=
  match n, s with
  | O, _ => s
  | S _, EmptyString => EmptyString
  | S n', String _ s' => drop n' s'
  end.

(** [s.startswith(p)]. *)
Definition startswith (s p : string) : bool :=
  String.eqb (take (String.length p) s) p.

(** [s.endswith(suffix)]: the last [len(suffix)] characters of [s] are
    [suffix]. *)
Definition endswith (s suffix : string) : bool :=
  (String.length suffix <=? String.length s)%nat
  && String.eqb (drop (String.length s - String.length suffix) s) suffix.

(** [s.endswith(t)] for a tuple [t] of suffixes: some member is a suffix. *)
Definition endswith_any (s : string) (suffixes : list string) : bool :=
  existsb (endswith s) suffixes.

(** [s.rfind(c)] for a one-character [c]: the highest index of [c] in [s],
    or [-1].  [rfind_from i c s] scans [s] whose first character has index
    [i]. *)
Fixpoint rfind_from (i : Z) (c : ascii) (s : string) : Z :=
  match s with
  | EmptyString => -1
  | String d s' =>
      let r := rfind_from (i + 1) c s' in
      if 0 <=? r then r else if Ascii.eqb d c then i else -1
  end.

Definition rfind (c : ascii) (s : string) : Z := rfind_from 0 c s.

(** [str(n)] for an integer [n]. *)
Definition str (n : Z) : string := NilZero.string_of_int (Z.to_int n).

(** ** [os.path] (POSIX flavour, [posixpath]) *)

Definition sep : ascii := "/"%char.
Definition extsep : ascii := "."%char.

(** [os.path.basename(p)]: [i = p.rfind('/') + 1; return p[i:]]. *)
Definition basename (p : string) : string :=
  let i := rfind sep p + 1 in
  drop (Z.to_nat i) p.

(** The loop of [genericpath._splitext] that skips the leading dots of the
    file name: it scans the indices [filenameIndex .. dotIndex - 1] and
    answers [true] as soon as one holds a character other than ['.'];
    [n] is the number of indices left, [dotIndex - filenameIndex]. *)
Fixpoint has_non_dot (n : nat) (s : string) : bool :=
  match n, s with
  | O, _ => false
  | S _, EmptyString => true
  | S n', String c s' => if Ascii.eqb c extsep then has_non_dot n' s' else true
  end.

(** [os.path.splitext(p)]: split off the extension, that is the part from
    the last dot on, when that dot comes after the last separator and after
    a character of the file name which is not a dot. *)
Definition splitext (p : string) : string * string :=
  let sepIndex := rfind sep p in
  let dotIndex := rfind extsep p in
  if dotIndex >? sepIndex then
    let filenameIndex := sepIndex + 1 in
    if has_non_dot (Z.to_nat (dotIndex - filenameIndex))
                   (drop (Z.to_nat filenameIndex) p)
    then (take (Z.to_nat dotIndex) p, drop (Z.to_nat dotIndex) p)
    else (p, EmptyString)
  else (p, EmptyString).

(** [os.path.join(a, b)]: [b] alone when it is absolute, otherwise [a] and
    [b] with exactly one separator added unless [a] is empty or already
    ends with one. *)
Definition join (a b : string) : string :=
  if startswith b "/" then b
  else if (String.eqb a EmptyString || endswith a "/")%bool then a ++ b
  else a ++ "/" ++ b.

(** ** The crop box of [process_image]

    The four assignments of the two branches, on the size
    [(width, height)] of the opened image; [//] is floor division. *)
Definition box : Type := Z * Z * Z * Z.

Definition crop_box (width height : Z) : box :=
  if width >? height then
    (* Landscape image *)
    let left := (width - height) / 2 in
    let top := 0 in
    let right := left + height in
    let bottom := height in
    (left, top, right, bottom)
  else
    (* Portrait or square image *)
    let left := 0 in
    let top := (height - width) / 2 in
    let right := width in
    let bottom := top + width in
    (left, top, right, bottom).

(** ** Exceptions, results and the outside world

    [exn] is an instance of a class derived from Python's [Exception], the
    class the handler of [process_image] names; [exn_str] is [str(e)]. *)
Inductive exn : Type := PyException (detail : string).

Definition exn_str (e : exn) : string :=
  match e with PyException detail => detail end.

Inductive result (A : Type) : Type :=
| Ok (a : A)
| Raise (e : exn).
Arguments Ok {A} a.
Arguments Raise {A} e.

(** The resampling filters of [PIL.Image]. *)
Inductive resample : Type := NEAREST | BILINEAR | BICUBIC | LANCZOS.

(** The calls the program makes to its collaborators, with their
    arguments, in the order they are made. *)
Inductive event : Type :=
| EvExists (path : string)
| EvMakedirs (path : string)
| EvListdir (path : string)
| EvOpen (path : string)
| EvCrop (b : box)
| EvResize (size : Z * Z) (filter : resample)
| EvSave (path : string) (format : string)
| EvPrint (line : string).

(** The collaborators: the file system ([os]), the image library
    ([PIL.Image]) and the standard output ([print]).  [fs] is the state of
    the file system, [image] an image in memory.  A call that can raise
    returns a [result]; a call that writes returns the file system it
    leaves, also when it raises.  [sys_print line s] is what
    [print(line)] does in the state [s]: it returns, or it raises (a
    character the encoding of the stream lacks, a broken stream). *)
Class Platform (fs image : Type) : Type := {
  sys_print : string -> fs -> result unit;
  sys_exists : string -> fs -> bool;
  sys_makedirs : string -> fs -> result unit * fs;
  sys_listdir : string -> fs -> result (list string);
  sys_open : string -> fs -> result image;
  sys_size : image -> Z * Z;
  sys_crop : image -> box -> result image;
  sys_resize : image -> Z * Z -> resample -> result image;
  sys_save : image -> string -> string -> fs -> result unit * fs
}.

Section Program.
Context {fs image : Type} `{Platform fs image}.

(** The state a run acts on: the file system and the calls made so far
    (the lines given to [print] are its [EvPrint] events). *)
Record world : Type := World { w_fs : fs; w_trace : list event }.

Definition log (e : event) (w : world) : world :=
  World (w_fs w) (w_trace w ++ [e]).

(** A computation returns or raises, and leaves a world in both cases. *)
Definition M (A : Type) : Type := world -> result A * world.

Definition ret {A} (a : A) : M A := fun w => (Ok a, w).

Definition bind {A B} (m : M A) (k : A -> M B) : M B :=
  fun w =>
    match m w with
    | (Ok a, w') => k a w'
    | (Raise e, w') => (Raise e, w')
    end.

(** [try: body / except Exception as e: handler]. *)
Definition try_except {A} (body : M A) (handler : exn -> M A) : M A :=
  fun w =>
    match body w with
    | (Ok a, w') => (Ok a, w')
    | (Raise e, w') => handler e w'
    end.

Notation "x <- m ;; k" := (bind m (fun x => k))
  (at level 61, m at next level, right associativity).
Notation "m ;; k" := (bind m (fun _ => k))
  (at level 61, right associativity).

(** *** The calls *)

(** [print(line)]: the call is recorded with its line; it returns or
    raises as the standard output decides. *)
Definition print (line : string) : M unit :=
  fun w => (sys_print line (w_fs w), log (EvPrint line) w).

Definition os_path_exists (path : string) : M bool :=
  fun w => (Ok (sys_exists path (w_fs w)), log (EvExists path) w).

Definition os_makedirs (path : string) : M unit :=
  fun w =>
    let '(r, fs') := sys_makedirs path (w_fs w) in
    (r, World fs' (w_trace w ++ [EvMakedirs path])).

Definition os_listdir (path : string) : M (list string) :=
  fun w => (sys_listdir path (w_fs w), log (EvListdir path) w).

Definition Image_open (path : string) : M image :=
  fun w => (sys_open path (w_fs w), log (EvOpen path) w).

Definition Image_crop (img : image) (b : box) : M image :=
  fun w => (sys_crop img b, log (EvCrop b) w).

Definition Image_resize (img : image) (size : Z * Z) (filter : resample)
  : M image :=
  fun w => (sys_resize img size filter, log (EvResize size filter) w).

Definition Image_save (img : image) (path format : string) : M unit :=
  fun w =>
    let '(r, fs') := sys_save img path format (w_fs w) in
    (r, World fs' (w_trace w ++ [EvSave path format])).

(** *** [process_image] *)

(** The name of the file written for [input_path]. *)
Definition output_filename_of (input_path : string) : string :=
  let filename := basename input_path in
  let name_without_ext := fst (splitext filename) in
  name_without_ext ++ ".png".

Definition process_image (input_path output_folder : string) (size : Z * Z)
  : M bool :=
  try_except
    ((* Open the image *)
     img <- Image_open input_path ;;
     (* Get original dimensions *)
     let '(width, height) := sys_size img in
     (* Calculate crop box (centered) *)
     let crop := crop_box width height in
     (* Crop to square *)
     img_cropped <- Image_crop img crop ;;
     (* Resize to target size *)
     img_resized <- Image_resize img_cropped size LANCZOS ;;
     (* Generate output filename (change extension to .png) *)
     let filename := basename input_path in
     let name_without_ext := fst (splitext filename) in
     let output_filename := name_without_ext ++ ".png" in
     let output_path := join output_folder output_filename in
     (* Save as PNG *)
     Image_save img_resized output_path "PNG" ;;
     print ("Processed: " ++ filename ++ " → " ++ output_filename) ;;
     ret true)
    (fun e =>
       print ("Error processing " ++ input_path ++ ": " ++ exn_str e) ;;
       ret false).

(** *** [batch_process_images] *)

Definition jpg_extensions : list string := [".jpg"; ".jpeg"; ".JPG"; ".JPEG"].

(** The test of the list comprehension: [f.endswith(jpg_extensions)]. *)
Definition is_jpg (f : string) : bool := endswith_any f jpg_extensions.

(** The [for] loop over [jpg_files], with its counter [successful]. *)
Fixpoint process_files (input_folder output_folder : string) (size : Z * Z)
  (jpg_files : list string) (successful : Z) : M Z :=
  match jpg_files with
  | [] => ret successful
  | jpg_file :: rest =>
      let input_path := join input_folder jpg_file in
      ok <- process_image input_path output_folder size ;;
      process_files input_folder output_folder size rest
        (if ok then successful + 1 else successful)
  end.

Definition summary_line (successful total : Z) : string :=
  "Processing complete. " ++ str successful ++ " of " ++ str total
  ++ " images converted successfully.".

(** The first block of [batch_process_images]:
    [if not os.path.exists(output_folder): os.makedirs(...); print(...)]. *)
Definition ensure_output_folder (output_folder : string) : M unit :=
  present <- os_path_exists output_folder ;;
  if negb present then
    os_makedirs output_folder ;;
    print ("Created output directory: " ++ output_folder)
  else ret tt.

(** Its second block: the names of [os.listdir(input_folder)] that end with
    one of [jpg_extensions], in the order of the listing. *)
Definition list_jpg_files (input_folder : string) : M (list string) :=
  names <- os_listdir input_folder ;;
  ret (filter is_jpg names).

Definition none_found_line (input_folder : string) : string :=
  "No JPG files found in " ++ input_folder.

Definition found_line (jpg_files : list string) : string :=
  "Found " ++ str (Z.of_nat (List.length jpg_files))
  ++ " JPG files to process...".

Definition batch_process_images (input_folder output_folder : string)
  (size : Z * Z) : M unit :=
  (* Create output folder if it doesn't exist *)
  ensure_output_folder output_folder ;;
  (* Get all JPG files in the input folder *)
  jpg_files <- list_jpg_files input_folder ;;
  match jpg_files with
  | [] => print (none_found_line input_folder)
  | _ :: _ =>
      print (found_line jpg_files) ;;
      (* Process each file *)
      successful <-
        process_files input_folder output_folder size jpg_files 0 ;;
      print (summary_line successful (Z.of_nat (List.length jpg_files)))
  end.

(** ** Notions used to state the properties *)

(** The paths given to [Image.open], the boxes given to [crop], the paths
    given to [save] and the lines printed, read off a trace. *)
Definition opened (tr : list event) : list string :=
  flat_map (fun ev => match ev with EvOpen p => [p] | _ => [] end) tr.

Definition cropped (tr : list event) : list box :=
  flat_map (fun ev => match ev with EvCrop b => [b] | _ => [] end) tr.

Definition saved (tr : list event) : list string :=
  flat_map (fun ev => match ev with EvSave p _ => [p] | _ => [] end) tr.

Definition printed (tr : list event) : list string :=
  flat_map (fun ev => match ev with EvPrint l => [l] | _ => [] end) tr.

(** The number of [True] among the values returned by [process_image]. *)
Fixpoint count_true (bs : list bool) : Z :=
  match bs with
  | [] => 0
  | b :: bs' => (if b then 1 else 0) + count_true bs'
  end.

(** One invocation of [process_image] per file, in order, collecting the
    values returned. *)
Fixpoint transform_each (input_folder output_folder : string) (size : Z * Z)
  (files : list string) : M (list bool) :=
  match files with
  | [] => ret []
  | f :: rest =>
      b <- process_image (join input_folder f) output_folder size ;;
      bs <- transform_each input_folder output_folder size rest ;;
      ret (b :: bs)
  end.


(** The line printed by the handler. *)
Definition error_line (input_path : string) (e : exn) : string :=
  "Error processing " ++ input_path ++ ": " ++ exn_str e.

(** The line printed after a file is saved. *)
Definition processed_line (input_path : string) : string :=
  "Processed: " ++ basename input_path ++ " → "
  ++ output_filename_of input_path.

(** The box given to [crop] for the image [img]. *)
Definition box_of (img : image) : box :=
  crop_box (fst (sys_size img)) (snd (sys_size img)).

(** The path given to [save]. *)
Definition output_path_of (input_path output_folder : string) : string :=
  join output_folder (output_filename_of input_path).

Definition extend (w : world) (fs' : fs) (evs : list event) : world :=
  World fs' (w_trace w ++ evs).

(** [body_raises input_path output_folder size w e fs' evs]: run from [w],
    the body of the [try] of [process_image] raises [e], in one of the
    steps open, crop, resize, save or in the print that follows them; it
    leaves the file system [fs'] and has made the calls [evs]. *)
Inductive body_raises (input_path output_folder : string) (size : Z * Z)
  (w : world) : exn -> fs -> list event -> Prop :=
| BodyOpen e :
    sys_open input_path (w_fs w) = Raise e ->
    body_raises input_path output_folder size w e (w_fs w)
      [EvOpen input_path]
| BodyCrop img e :
    sys_open input_path (w_fs w) = Ok img ->
    sys_crop img (box_of img) = Raise e ->
    body_raises input_path output_folder size w e (w_fs w)
      [EvOpen input_path; EvCrop (box_of img)]
| BodyResize img c e :
    sys_open input_path (w_fs w) = Ok img ->
    sys_crop img (box_of img) = Ok c ->
    sys_resize c size LANCZOS = Raise e ->
    body_raises input_path output_folder size w e (w_fs w)
      [EvOpen input_path; EvCrop (box_of img); EvResize size LANCZOS]
| BodySave img c r e fs' :
    sys_open input_path (w_fs w) = Ok img ->
    sys_crop img (box_of img) = Ok c ->
    sys_resize c size LANCZOS = Ok r ->
    sys_save r (output_path_of input_path output_folder) "PNG" (w_fs w)
      = (Raise e, fs') ->
    body_raises input_path output_folder size w e fs'
      [EvOpen input_path; EvCrop (box_of img); EvResize size LANCZOS;
       EvSave (output_path_of input_path output_folder) "PNG"]
| BodyPrint img c r fs' e :
    sys_open input_path (w_fs w) = Ok img ->
    sys_crop img (box_of img) = Ok c ->
    sys_resize c size LANCZOS = Ok r ->
    sys_save r (output_path_of input_path output_folder) "PNG" (w_fs w)
      = (Ok tt, fs') ->
    sys_print (processed_line input_path) fs' = Raise e ->
    body_raises input_path output_folder size w e fs'
      [EvOpen input_path; EvCrop (box_of img); EvResize size LANCZOS;
       EvSave (output_path_of input_path output_folder) "PNG";
       EvPrint (processed_line input_path)].

(** The three ways a run of [process_image] goes, with the world each
    leaves: the body returns; the body raises and the handler returns;
    the body raises and the print of the handler raises. *)
Inductive run_of (input_path output_folder : string) (size : Z * Z)
  (w : world) : result bool * world -> Prop :=
| RunSaves img c r fs' :
    sys_open input_path (w_fs w) = Ok img ->
    sys_crop img (box_of img) = Ok c ->
    sys_resize c size LANCZOS = Ok r ->
    sys_save r (output_path_of input_path output_folder) "PNG" (w_fs w)
      = (Ok tt, fs') ->
    sys_print (processed_line input_path) fs' = Ok tt ->
    run_of input_path output_folder size w
      (Ok true,
       extend w fs'
         [EvOpen input_path; EvCrop (box_of img); EvResize size LANCZOS;
          EvSave (output_path_of input_path output_folder) "PNG";
          EvPrint (processed_line input_path)])
| RunHandled e fs' evs :
    body_raises input_path output_folder size w e fs' evs ->
    sys_print (error_line input_path e) fs' = Ok tt ->
    run_of input_path output_folder size w
      (Ok false,
       extend w fs' (evs ++ [EvPrint (error_line input_path e)]))
| RunEscapes e fs' evs e' :
    body_raises input_path output_folder size w e fs' evs ->
    sys_print (error_line input_path e) fs' = Raise e' ->
    run_of input_path output_folder size w
      (Raise e',
       extend w fs' (evs ++ [EvPrint (error_line input_path e)])).

(** [prints_errors input_folder jpg_files]: the standard output takes the
    error line of every file of the list, whatever the exception and the
    state. *)
Definition prints_errors (input_folder : string) (jpg_files : list string)
  : Prop :=
  forall f e s,
    In f jpg_files -> sys_print (error_line (join input_folder f) e) s = Ok tt.

(** The directories given to [os.makedirs], read off a trace. *)
Definition made (tr : list event) : list string :=
  flat_map (fun ev => match ev with EvMakedirs p => [p] | _ => [] end) tr.

(** The names [os.listdir(input_folder)] gives in the file system [s]
    (none when it raises). *)
Definition listing (input_folder : string) (s : fs) : list string :=
  match sys_listdir input_folder s with
  | Ok names => names
  | Raise _ => []
  end.

(** [loop_event input_folder output_folder size jpg_files ev]: the call
    [ev] is one the loop over [jpg_files] may make: it opens a file of the
    list in the input folder, crops with a box computed by [crop_box],
    resizes to [size] with the filter [LANCZOS], saves in the format [PNG]
    to the output path of a file of the list, or prints. *)
Definition loop_event (input_folder output_folder : string) (size : Z * Z)
  (jpg_files : list string) (ev : event) : Prop :=
  match ev with
  | EvOpen p => exists f, In f jpg_files /\ p = join input_folder f
  | EvCrop b => exists width height, b = crop_box width height
  | EvResize s flt => s = size /\ flt = LANCZOS
  | EvSave p fmt =>
      fmt = "PNG"
      /\ exists f, In f jpg_files
                   /\ p = output_path_of (join input_folder f) output_folder
  | EvPrint _ => True
  | EvExists _ | EvMakedirs _ | EvListdir _ => False
  end.

(** [batch_event ...]: the call [ev] is one [batch_process_images] may
    make: a test or a creation of the output folder, a listing of the
    input folder, or a call of the loop. *)
Definition batch_event (input_folder output_folder : string) (size : Z * Z)
  (jpg_files : list string) (ev : event) : Prop :=
  match ev with
  | EvExists p | EvMakedirs p => p = output_folder
  | EvListdir p => p = input_folder
  | _ => loop_event input_folder output_folder size jpg_files ev
  end.

(** What follows the first block of [batch_process_images]. *)
Definition list_and_process (input_folder output_folder : string)
  (size : Z * Z) : M unit :=
  jpg_files <- list_jpg_files input_folder ;;
  match jpg_files with
  | [] => print (none_found_line input_folder)
  | _ :: _ =>
      print (found_line jpg_files) ;;
      successful <-
        process_files input_folder output_folder size jpg_files 0 ;;
      print (summary_line successful (Z.of_nat (List.length jpg_files)))
  end.

(** [report_line input_folder f line]: [line] is what [process_image]
    prints for the file [f] of the input folder, the line of a saved file
    or the line of an error. *)
Definition report_line (input_folder f line : string) : Prop :=
  line = processed_line (join input_folder f)
  \/ exists e, line = error_line (join input_folder f) e.

End Program.

Arguments world fs : clear implicits.
Arguments M fs A : clear implicits.

Notation "x <- m ;; k" := (bind m (fun x => k))
  (at level 61, m at next level, right associativity).
Notation "m ;; k" := (bind m (fun _ => k))
  (at level 61, right associativity).

(** *** [main]

    The namespace [parser.parse_args()] returns: the positional
    [input_folder], the option [--output-folder] ([None] when it is not
    given) and the option [--size] (an [int]). *)
Record args : Type := Args {
  args_input_folder : string;
  args_output_folder : option string;
  args_size : Z
}.

(** The output folder [main] passes on: [not args.output_folder] holds of
    [None] and of the empty string, and then the folder is
    [os.path.join(args.input_folder, 'converted')]. *)
Definition main_output_folder (a : args) : string :=
  match args_output_folder a with
  | None => join (args_input_folder a) "converted"
  | Some s =>
      if String.eqb s EmptyString then join (args_input_folder a) "converted"
      else s
  end.

(** The body of [main] after [parse_args]. *)
Definition main {fs image : Type} `{Platform fs image} (a : args)
  : M fs unit :=
  batch_process_images (args_input_folder a) (main_output_folder a)
    (args_size a, args_size a).

(** The four coordinates of a crop box. *)
Definition box_left (b : box) : Z := match b with (l, _, _, _) => l end.
Definition box_top (b : box) : Z := match b with (_, t, _, _) => t end.
Definition box_right (b : box) : Z := match b with (_, _, r, _) => r end.
Definition box_bottom (b : box) : Z := match b with (_, _, _, d) => d end.

(** [contains c s]: the character [c] occurs in [s]. *)
Fixpoint contains (c : ascii) (s : string) : bool :=
  match s with
  | EmptyString => false
  | String d s' => Ascii.eqb d c || contains c s'
  end.

(** [all_dots s]: [s] consists of dots only. *)
Fixpoint all_dots (s : string) : bool :=
  match s with
  | EmptyString => true
  | String d s' => Ascii.eqb d extsep && all_dots s'
  end.

(** [splits_extension stem ext]: [ext] is the extension of the file name
    [stem ++ ext] and [stem] the rest.  The extension starts at the last
    dot of the name, provided a character other than a dot comes before
    it; a name whose dots are all leading has the empty extension. *)
Definition splits_extension (stem ext : string) : Prop :=
  (ext = EmptyString /\
   exists dots rest, stem = dots ++ rest /\ all_dots dots = true
                     /\ contains extsep rest = false)
  \/ (exists e, ext = String extsep e /\ contains extsep e = false
                /\ all_dots stem = false).



(** [unrelated ext]: neither [ext] nor any of the four suffixes ends with
    the other. *)
Definition unrelated (ext : string) : bool :=
  forallb (fun suffix => negb (endswith ext suffix)
                         && negb (endswith suffix ext)) jpg_extensions.

(** ** An in-memory platform, to run the program on concrete folders *)
Module MemFS.

(** The directories that exist with the names each lists, the files that
    decode as images with their sizes, the paths that refuse creation or
    writing, and the files saved so far. *)
Record t : Type := Make {
  dirs : list (string * list string);
  images : list (string * (Z * Z));
  denied : list string;
  written : list string
}.

Fixpoint assoc {A : Type} (k : string) (l : list (string * A)) : option A :=
  match l with
  | [] => None
  | (k', v) :: l' => if String.eqb k k' then Some v else assoc k l'
  end.

Definition mem (k : string) (l : list string) : bool :=
  existsb (String.eqb k) l.

Definition is_some {A : Type} (o : option A) : bool :=
  match o with Some _ => true | None => false end.

Definition exists_ (path : string) (m : t) : bool :=
  is_some (assoc path (dirs m)) || is_some (assoc path (images m))
  || mem path (written m).

Definition makedirs (path : string) (m : t) : result unit * t :=
  if mem path (denied m) then
    (Raise (PyException ("[Errno 13] Permission denied: '" ++ path ++ "'")),
     m)
  else
    (Ok tt, Make ((path, []) :: dirs m) (images m) (denied m) (written m)).

Definition listdir (path : string) (m : t) : result (list string) :=
  match assoc path (dirs m) with
  | Some names => Ok names
  | None =>
      Raise (PyException
               ("[Errno 2] No such file or directory: '" ++ path ++ "'"))
  end.

(** An image in memory is its size. *)
Definition open (path : string) (m : t) : result (Z * Z) :=
  match assoc path (images m) with
  | Some size => Ok size
  | None =>
      Raise (PyException ("cannot identify image file '" ++ path ++ "'"))
  end.

Definition crop (img : Z * Z) (b : box) : result (Z * Z) :=
  match b with
  | (x0, y0, x1, y1) => Ok (x1 - x0, y1 - y0)
  end.

Definition resize (img : Z * Z) (size : Z * Z) (filter : resample)
  : result (Z * Z) :=
  if (0 <? fst size) && (0 <? snd size) then Ok size
  else Raise (PyException "height and width must be > 0").

Definition save (img : Z * Z) (path format : string) (m : t)
  : result unit * t :=
  if mem path (denied m) then
    (Raise (PyException ("[Errno 13] Permission denied: '" ++ path ++ "'")),
     m)
  else (Ok tt, Make (dirs m) (images m) (denied m) (path :: written m)).

(** The code points of a string, read as UTF-8: [pending] bytes of the
    current character are still to come and [acc] holds its bits so far. *)
Fixpoint code_points (pending : nat) (acc : N) (s : string) : list N :=
  match s with
  | EmptyString => []
  | String c s' =>
      let b := N_of_ascii c in
      match pending with
      | O =>
          if (b <? 128)%N then b :: code_points 0 0 s'
          else if (b <? 224)%N then code_points 1 (b - 192) s'
          else if (b <? 240)%N then code_points 2 (b - 224) s'
          else code_points 3 (b - 240) s'
      | S O => (acc * 64 + (b - 128))%N :: code_points 0 0 s'
      | S p => code_points p (acc * 64 + (b - 128))%N s'
      end
  end.

Definition hex_digit (d : N) : ascii :=
  if (d <? 10)%N then ascii_of_N (48 + d) else ascii_of_N (87 + d).

(** The last [digits] hexadecimal digits of [v]. *)
Fixpoint hex (digits : nat) (v : N) : string :=
  match digits with
  | O => EmptyString
  | S d => hex d (v / 16) ++ String (hex_digit (v mod 16)) EmptyString
  end.

(** A character as [UnicodeEncodeError] shows it. *)
Definition escaped (cp : N) : string :=
  if (cp <? 256)%N then "\x" ++ hex 2 cp
  else if (cp <? 65536)%N then "\u" ++ hex 4 cp
  else "\U" ++ hex 8 cp.

(** The number of characters outside ASCII at the head of a list. *)
Fixpoint run_length (cps : list N) : Z :=
  match cps with
  | [] => 0
  | cp :: rest => if (cp <? 128)%N then 0 else 1 + run_length rest
  end.

(** [str(e)] of the [UnicodeEncodeError] that encoding to ASCII raises on
    the characters [cps], the first of which has the index [i]; [None]
    when all of them are ASCII. *)
Fixpoint ascii_error (i : Z) (cps : list N) : option string :=
  match cps with
  | [] => None
  | cp :: rest =>
      if (cp <? 128)%N then ascii_error (i + 1) rest
      else
        Some ("'ascii' codec can't encode "
              ++ (if run_length rest =? 0 then
                    "character '" ++ escaped cp ++ "' in position " ++ str i
                  else
                    "characters in position " ++ str i ++ "-"
                    ++ str (i + run_length rest))
              ++ ": ordinal not in range(128)")
  end.

(** [print] on a standard output that encodes to UTF-8: it takes every
    line. *)
Definition print_utf8 (line : string) (m : t) : result unit := Ok tt.

(** [print] on a standard output that encodes to ASCII: it raises
    [UnicodeEncodeError] on a line that holds another character. *)
Definition print_ascii (line : string) (m : t) : result unit :=
  match ascii_error 0 (code_points 0 0 line) with
  | Some detail => Raise (PyException detail)
  | None => Ok tt
  end.

(** The platform whose standard output encodes to ASCII. *)
Definition platform_ascii : Platform t (Z * Z) := {|
  sys_print := print_ascii;
  sys_exists := exists_;
  sys_makedirs := makedirs;
  sys_listdir := listdir;
  sys_open := open;
  sys_size := fun img => img;
  sys_crop := crop;
  sys_resize := resize;
  sys_save := save
|}.

(** The platform whose standard output encodes to UTF-8. *)
#[export] Instance platform : Platform t (Z * Z) := {
  sys_print := print_utf8;
  sys_exists := exists_;
  sys_makedirs := makedirs;
  sys_listdir := listdir;
  sys_open := open;
  sys_size := fun img => img;
  sys_crop := crop;
  sys_resize := resize;
  sys_save := save
}.

(** A folder [photos] with three photographs, a file named [bad.jpg]
    that is no image, and a text file; no folder [out]. *)
Definition photos : t :=
  Make [("photos", ["a.jpg"; "notes.txt"; "b.JPG"; "bad.jpg"; "c.jpeg"])]
       [("photos/a.jpg", (800, 600)); ("photos/b.JPG", (600, 800));
        ("photos/c.jpeg", (512, 512))]
       []
       [].

(** A folder [docs] without any JPEG name; no folder [out]. *)
Definition docs : t :=
  Make [("docs", ["notes.txt"; "scan.Jpg"; "logo.png"])] [] [] [].

(** As [photos], but the folder [out] cannot be created. *)
Definition locked : t :=
  Make (dirs photos) (images photos) ["out"] [].

(** A folder [photos] with a file named [café.jpg] that is no image,
    listed before a photograph; no folder [out]. *)
Definition cafe : t :=
  Make [("photos", ["café.jpg"; "a.jpg"])]
       [("photos/a.jpg", (800, 600))]
       []
       [].

Definition start (m : t) : world t := World m [].

End MemFS.

Example crop_box_800_600 : crop_box 800 600 = (100, 0, 700, 600).
Proof. reflexivity. Qed.

Example splitext_photo : splitext "photo.JPEG" = ("photo", ".JPEG").
Proof. reflexivity. Qed.

Example splitext_dotfile : splitext ".jpg" = (".jpg", EmptyString).
Proof. reflexivity. Qed.

Example splitext_multi : splitext "dir.d/a.b.jpg" = ("dir.d/a.b", ".jpg").
Proof. reflexivity. Qed.

Example splitext_dirdot : splitext "dir.d/ab" = ("dir.d/ab", EmptyString).
Proof. reflexivity. Qed.

Example basename_ex : basename "in/sub/photo.JPEG" = "photo.JPEG".
Proof. reflexivity. Qed.

Example join_ex : join "out" "photo.png" = "out/photo.png".
Proof. reflexivity. Qed.

Example str_ex : str 0 = "0" /\ str 42 = "42".
Proof. split; reflexivity. Qed.

(** * Properties *)

(** ** Strings *)

Lemma length_append (a b : string) :
  String.length (a ++ b) = (String.length a + String.length b)%nat.
Proof. induction a as [|c a IH]; simpl; [reflexivity | now rewrite IH]. Qed.

Lemma append_nil_r (a : string) : a ++ EmptyString = a.
Proof. induction a as [|c a IH]; simpl; [reflexivity | now rewrite IH]. Qed.

Lemma append_assoc (a b c : string) : (a ++ b) ++ c = a ++ (b ++ c).
Proof. induction a as [|x a IH]; simpl; [reflexivity | now rewrite IH]. Qed.

Lemma take_drop (n : nat) (s : string) : take n s ++ drop n s = s.
Proof.
  revert s; induction n as [|n IH]; intros [|c s]; simpl; try reflexivity.
  now rewrite IH.
Qed.

Lemma drop_append (p s : string) : drop (String.length p) (p ++ s) = s.
Proof. induction p as [|c p IH]; simpl; [reflexivity | exact IH]. Qed.

Lemma take_append (p s : string) : take (String.length p) (p ++ s) = p.
Proof.
  induction p as [|c p IH]; simpl; [now destruct s | now rewrite IH].
Qed.

(** Two suffixes of one string: the shorter is a suffix of the longer. *)
Lemma suffixes_comparable (p q a b : string) :
  p ++ a = q ++ b -> (String.length a <= String.length b)%nat ->
  exists c, b = c ++ a.
Proof.
  revert p; induction q as [|x q IH]; intros p Heq Hlen; simpl in Heq.
  - exists p. now symmetry.
  - destruct p as [|y p]; simpl in Heq.
    + exfalso. apply (f_equal String.length) in Heq. simpl in Heq.
      rewrite length_append in Heq. lia.
    + injection Heq as _ Heq. exact (IH p Heq Hlen).
Qed.

(** [s.endswith(suffix)] holds exactly of the strings [p ++ suffix]. *)
Lemma endswith_iff (s suffix : string) :
  endswith s suffix = true <-> exists p, s = p ++ suffix.
Proof.
  unfold endswith; split.
  - intros Hs. apply andb_prop in Hs as [Hlen Heq].
    apply String.eqb_eq in Heq.
    remember (String.length s - String.length suffix)%nat as n.
    exists (take n s). rewrite <- Heq. symmetry; apply take_drop.
  - intros [p ->]. rewrite length_append.
    replace (String.length p + String.length suffix - String.length suffix)%nat
      with (String.length p) by lia.
    rewrite drop_append, String.eqb_refl, andb_true_r.
    apply Nat.leb_le; lia.
Qed.

Lemma endswith_app (stem suffix : string) :
  endswith (stem ++ suffix) suffix = true.
Proof. apply endswith_iff. now exists stem. Qed.

(** A name [stem ++ ext] ends with [suffix] only if one of [ext] and
    [suffix] ends with the other. *)
Lemma endswith_app_false (stem ext suffix : string) :
  endswith ext suffix = false -> endswith suffix ext = false ->
  endswith (stem ++ ext) suffix = false.
Proof.
  intros H1 H2. destruct (endswith (stem ++ ext) suffix) eqn:E; [|reflexivity].
  apply endswith_iff in E as [p E].
  destruct (Nat.le_ge_cases (String.length ext) (String.length suffix)) as [L|L].
  - destruct (suffixes_comparable _ _ _ _ E L) as [c Hc].
    assert (endswith suffix ext = true) by (apply endswith_iff; now exists c).
    congruence.
  - symmetry in E. destruct (suffixes_comparable _ _ _ _ E L) as [c Hc].
    assert (endswith ext suffix = true) by (apply endswith_iff; now exists c).
    congruence.
Qed.

(** ** The crop box *)

(** C2: for an image of positive width and height the crop box is
    [((width - height) // 2, 0, left + height, height)] when
    [width > height] and [(0, (height - width) // 2, width, top + width)]
    otherwise; it is a square of side [min(width, height)], it spans the
    shorter axis, and on the longer axis the margin before it is the margin
    after it or one less (the lower-index side when the difference is odd);
    an 800 x 600 image gives [(100, 0, 700, 600)]. *)
Theorem crop_box_centered_square (width height : Z) :
  0 < width -> 0 < height ->
  crop_box width height
  = (if width >? height
     then ((width - height) / 2, 0, (width - height) / 2 + height, height)
     else (0, (height - width) / 2, width, (height - width) / 2 + width))
  /\ box_right (crop_box width height) - box_left (crop_box width height)
     = Z.min width height
  /\ box_bottom (crop_box width height) - box_top (crop_box width height)
     = Z.min width height
  /\ (width <= height ->
      box_left (crop_box width height) = 0
      /\ box_right (crop_box width height) = width)
  /\ (height <= width ->
      box_top (crop_box width height) = 0
      /\ box_bottom (crop_box width height) = height)
  /\ box_left (crop_box width height)
     <= width - box_right (crop_box width height)
     <= box_left (crop_box width height) + 1
  /\ box_top (crop_box width height)
     <= height - box_bottom (crop_box width height)
     <= box_top (crop_box width height) + 1
  /\ crop_box 800 600 = (100, 0, 700, 600).
Proof.
  intros Hw Hh. unfold crop_box.
  destruct (width >? height) eqn:E; cbn [box_left box_top box_right box_bottom].
  - apply Z.gtb_lt in E.
    pose proof (Z.div_mod (width - height) 2 ltac:(lia)) as D.
    pose proof (Z.mod_pos_bound (width - height) 2 ltac:(lia)) as B.
    repeat split; try reflexivity; try lia.
  - assert (width <= height) as L
        by (destruct (Z.gtb_spec width height); [discriminate | lia]).
    pose proof (Z.div_mod (height - width) 2 ltac:(lia)) as D.
    pose proof (Z.mod_pos_bound (height - width) 2 ltac:(lia)) as B.
    assert (height <= width -> (height - width) / 2 = 0) as Z0
        by (intros; replace (height - width) with 0 by lia; reflexivity).
    repeat split; try reflexivity; try lia.
    all: intros Hhw; rewrite (Z0 Hhw); lia.
Qed.

Lemma crop_box_centered_square_witness :
  0 < 801 /\ 0 < 600
  /\ box_right (crop_box 801 600) - box_left (crop_box 801 600)
     = Z.min 801 600
  /\ box_left (crop_box 801 600)
     <= 801 - box_right (crop_box 801 600)
     <= box_left (crop_box 801 600) + 1.
Proof.
  assert (0 < 801) as Hw by lia. assert (0 < 600) as Hh by lia.
  destruct (crop_box_centered_square 801 600 Hw Hh)
    as (_ & S1 & _ & _ & _ & M1 & _).
  split; [exact Hw | split; [exact Hh | split; [exact S1 | exact M1]]].
Defined.

(** C3: for a square image of positive size the crop box is
    [(0, 0, width, height)], the whole image. *)
Theorem crop_box_square_is_identity (width height : Z) :
  0 < width -> 0 < height -> width = height ->
  crop_box width height = (0, 0, width, height).
Proof.
  intros Hw Hh ->. unfold crop_box.
  destruct (Z.gtb_spec height height) as [L|_]; [lia|].
  rewrite Z.sub_diag. reflexivity.
Qed.

Lemma crop_box_square_is_identity_witness :
  crop_box 512 512 = (0, 0, 512, 512).
Proof.
  apply (crop_box_square_is_identity 512 512); [lia | lia | reflexivity].
Defined.

(** C10: for an image of positive width and height the crop box lies
    inside the image: [0 <= left <= right <= width] and
    [0 <= top <= bottom <= height]. *)
Theorem crop_box_within_image (width height : Z) :
  0 < width -> 0 < height ->
  0 <= box_left (crop_box width height)
  /\ box_left (crop_box width height) <= box_right (crop_box width height)
  /\ box_right (crop_box width height) <= width
  /\ 0 <= box_top (crop_box width height)
  /\ box_top (crop_box width height) <= box_bottom (crop_box width height)
  /\ box_bottom (crop_box width height) <= height.
Proof.
  intros Hw Hh. unfold crop_box.
  destruct (Z.gtb_spec width height) as [L|L];
    cbn [box_left box_top box_right box_bottom].
  - pose proof (Z.div_mod (width - height) 2 ltac:(lia)) as D.
    pose proof (Z.mod_pos_bound (width - height) 2 ltac:(lia)) as B.
    repeat split; lia.
  - pose proof (Z.div_mod (height - width) 2 ltac:(lia)) as D.
    pose proof (Z.mod_pos_bound (height - width) 2 ltac:(lia)) as B.
    repeat split; lia.
Qed.

Lemma crop_box_within_image_witness :
  0 <= box_left (crop_box 3 8)
  /\ box_left (crop_box 3 8) <= box_right (crop_box 3 8)
  /\ box_right (crop_box 3 8) <= 3
  /\ 0 <= box_top (crop_box 3 8)
  /\ box_top (crop_box 3 8) <= box_bottom (crop_box 3 8)
  /\ box_bottom (crop_box 3 8) <= 8.
Proof.
  apply (crop_box_within_image 3 8); lia.
Defined.

(** ** The selection of the files *)

Lemma is_jpg_app_unrelated (stem ext : string) :
  unrelated ext = true -> is_jpg (stem ++ ext) = false.
Proof.
  unfold unrelated, is_jpg, endswith_any. intros U.
  rewrite forallb_forall in U.
  destruct (existsb (endswith (stem ++ ext)) jpg_extensions) eqn:E;
    [|reflexivity].
  apply existsb_exists in E as (suffix & Hin & Hs).
  specialize (U suffix Hin). apply andb_prop in U as [U1 U2].
  rewrite (endswith_app_false stem ext suffix) in Hs;
    [discriminate | now destruct (endswith ext suffix)
                  | now destruct (endswith suffix ext)].
Qed.






(** ** File names *)

Lemma contains_append (c : ascii) (a b : string) :
  contains c (a ++ b) = contains c a || contains c b.
Proof.
  induction a as [|x a IH]; simpl; [reflexivity|].
  now rewrite IH, orb_assoc.
Qed.

Lemma all_dots_append (a b : string) :
  all_dots (a ++ b) = all_dots a && all_dots b.
Proof.
  induction a as [|x a IH]; simpl; [reflexivity|].
  now rewrite IH, andb_assoc.
Qed.

Lemma drop_S (k : nat) (s : string) (c : ascii) (rest : string) :
  drop k s = String c rest -> drop (S k) s = rest.
Proof.
  revert s; induction k as [|k IH]; intros [|x s]; simpl; try discriminate.
  - intros E; now injection E.
  - intros E. specialize (IH s E). exact IH.
Qed.

Lemma take_S (k : nat) (s : string) (c : ascii) (rest : string) :
  drop k s = String c rest -> take (S k) s = take k s ++ String c EmptyString.
Proof.
  revert s; induction k as [|k IH]; intros [|x s]; simpl; try discriminate.
  - intros E; injection E as -> _. reflexivity.
  - intros E. f_equal. exact (IH s E).
Qed.

Lemma drop_contains (k : nat) (s : string) (c : ascii) (rest : string) :
  drop k s = String c rest -> contains c s = true.
Proof.
  intros E. rewrite <- (take_drop k s), E, contains_append. simpl.
  rewrite Ascii.eqb_refl. apply orb_true_r.
Qed.

(** [s.rfind(c)] is [-1] when [c] does not occur in [s], and otherwise the
    index of an occurrence of [c] after which [c] does not occur. *)
Lemma rfind_from_spec (c : ascii) (s : string) (i : Z) :
  0 <= i ->
  (contains c s = false /\ rfind_from i c s = -1)
  \/ (exists k rest,
        rfind_from i c s = i + Z.of_nat k
        /\ drop k s = String c rest /\ contains c rest = false).
Proof.
  revert i; induction s as [|d s IH]; intros i Hi; simpl.
  - now left.
  - destruct (IH (i + 1) ltac:(lia)) as [[Hc Hr]|(k & rest & Hr & Hd & Hc)].
    + rewrite Hr, Hc, orb_false_r. simpl.
      destruct (Ascii.eqb_spec d c) as [->|Hne].
      * right. exists 0%nat, s. simpl. repeat split; [lia | exact Hc].
      * now left.
    + right. exists (S k), rest. rewrite Hr.
      destruct (Z.leb_spec 0 (i + 1 + Z.of_nat k)); [|lia].
      repeat split; [lia | exact Hd | exact Hc].
Qed.

Lemma rfind_spec (c : ascii) (s : string) :
  (contains c s = false /\ rfind c s = -1)
  \/ (exists k rest,
        rfind c s = Z.of_nat k
        /\ drop k s = String c rest /\ contains c rest = false).
Proof.
  unfold rfind.
  destruct (rfind_from_spec c s 0 ltac:(lia)) as [?|(k & rest & E & ?)];
    [now left | right; exists k, rest; now rewrite E].
Qed.

Lemma rfind_absent (c : ascii) (s : string) :
  contains c s = false -> rfind c s = -1.
Proof.
  intros Hc. destruct (rfind_spec c s) as [[_ E]|(k & rest & _ & Hd & _)];
    [exact E|].
  apply drop_contains in Hd. congruence.
Qed.

(** [os.path.basename(p)] is what follows the last separator of [p]: it
    holds no separator, and what precedes it is empty or ends with one. *)
Lemma basename_spec (p : string) :
  exists dir,
    p = dir ++ basename p
    /\ contains sep (basename p) = false
    /\ (dir = EmptyString \/ exists d, dir = d ++ "/").
Proof.
  unfold basename.
  destruct (rfind_spec sep p) as [[Hc ->]|(k & rest & -> & Hd & Hc)].
  - exists EmptyString. simpl. repeat split; [exact Hc | now left].
  - replace (Z.to_nat (Z.of_nat k + 1)) with (S k) by lia.
    exists (take (S k) p). rewrite take_drop, (drop_S _ _ _ _ Hd).
    repeat split; [exact Hc|]. right. exists (take k p).
    exact (take_S _ _ _ _ Hd).
Qed.

(** The loop that skips the leading dots finds a character other than a
    dot exactly when the scanned prefix is not made of dots. *)
Lemma has_non_dot_spec (n : nat) (s : string) :
  (n <= String.length s)%nat ->
  has_non_dot n s = negb (all_dots (take n s)).
Proof.
  revert s; induction n as [|n IH]; intros [|c s]; simpl; intros Hn;
    try reflexivity; try lia.
  destruct (Ascii.eqb c extsep); simpl; [apply IH; lia | reflexivity].
Qed.

Lemma drop_length (k : nat) (s : string) (c : ascii) (rest : string) :
  drop k s = String c rest -> (k < String.length s)%nat.
Proof.
  revert s; induction k as [|k IH]; intros [|x s]; simpl; try discriminate.
  - lia.
  - intros E. specialize (IH s E). lia.
Qed.

(** [os.path.splitext] of a file name (no separator in it) splits it into
    a stem and its extension. *)
Lemma splitext_spec (f : string) :
  contains sep f = false ->
  exists stem ext,
    splitext f = (stem, ext) /\ f = stem ++ ext /\ splits_extension stem ext.
Proof.
  intros Hsep. unfold splitext. rewrite (rfind_absent _ _ Hsep).
  destruct (rfind_spec extsep f) as [[Hc ->]|(k & rest & -> & Hd & Hc)].
  - exists f, EmptyString. simpl.
    rewrite append_nil_r. repeat split. left. split; [reflexivity|].
    exists EmptyString, f. now repeat split.
  - destruct (Z.gtb_spec (Z.of_nat k) (-1)); [|lia].
    replace (Z.to_nat (Z.of_nat k - (-1 + 1))) with k by lia.
    replace (Z.to_nat (-1 + 1)) with 0%nat by lia.
    rewrite Nat2Z.id. cbn [drop].
    pose proof (drop_length _ _ _ _ Hd) as Hk.
    rewrite has_non_dot_spec by lia.
    destruct (all_dots (take k f)) eqn:Ha; cbn [negb].
    + exists f, EmptyString. rewrite append_nil_r. repeat split.
      left. split; [reflexivity|].
      exists (take (S k) f), rest. repeat split.
      * rewrite <- (drop_S _ _ _ _ Hd). symmetry; apply take_drop.
      * rewrite (take_S _ _ _ _ Hd), all_dots_append, Ha.
        cbn [all_dots andb]. rewrite Ascii.eqb_refl. reflexivity.
      * exact Hc.
    + exists (take k f), (drop k f). repeat split.
      * symmetry; apply take_drop.
      * right. exists rest. now repeat split.
Qed.

Lemma startswith_sep_append (a b : string) :
  contains sep a = false -> startswith b "/" = false ->
  startswith (a ++ b) "/" = false.
Proof.
  destruct a as [|c a]; simpl; [tauto|]. intros Hc _.
  apply orb_false_elim in Hc as [Hc _].
  unfold startswith. cbn [String.length take append String.eqb].
  unfold sep in Hc. rewrite Hc. reflexivity.
Qed.

(** [os.path.join(a, b)] for a relative [b]. *)
Lemma join_relative (a b : string) :
  startswith b "/" = false ->
  join a b = if (String.eqb a EmptyString || endswith a "/")%bool
             then a ++ b else a ++ "/" ++ b.
Proof. unfold join. now intros ->. Qed.

(** ** Runs of [process_image] *)

Section Runs.
Context {fs image : Type} `{Platform fs image}.

(** The handler of [process_image], run after the body has raised. *)
Lemma handler_run (input_path output_folder : string) (size : Z * Z)
  (w : world fs) (e : exn) (fs' : fs) (evs : list event) :
  body_raises input_path output_folder size w e fs' evs ->
  run_of input_path output_folder size w
    (match sys_print (error_line input_path e) fs' with
     | Ok _ => Ok false
     | Raise e' => Raise e'
     end,
     extend w fs' (evs ++ [EvPrint (error_line input_path e)])).
Proof.
  intros B.
  destruct (sys_print (error_line input_path e) fs') as [[]|e'] eqn:Ep.
  - exact (RunHandled _ _ _ _ e fs' evs B Ep).
  - exact (RunEscapes _ _ _ _ e fs' evs e' B Ep).
Qed.

Lemma process_image_run (input_path output_folder : string) (size : Z * Z)
  (w : world fs) :
  run_of input_path output_folder size w
    (process_image input_path output_folder size w).
Proof.
  pose proof (handler_run input_path output_folder size w) as Hd.
  pose proof (BodyCrop input_path output_folder size w) as BC.
  pose proof (BodyResize input_path output_folder size w) as BR.
  pose proof (BodySave input_path output_folder size w) as BS.
  pose proof (BodyPrint input_path output_folder size w) as BP.
  pose proof (RunSaves input_path output_folder size w) as RT.
  unfold process_image, try_except, bind, Image_open, Image_crop,
    Image_resize, Image_save, print, ret, log.
  unfold extend, box_of, output_path_of, processed_line, error_line,
    output_filename_of in *.
  cbn [w_fs w_trace].
  destruct (sys_open input_path (w_fs w)) as [img|e] eqn:Eo.
  2:{ cbn [w_fs w_trace].
      specialize (Hd e _ _ (BodyOpen _ _ _ _ e Eo)).
      destruct (sys_print _ (w_fs w)) as [[]|e']; cbn [w_fs w_trace];
        rewrite <- app_assoc; exact Hd. }
  specialize (BC img). specialize (BR img). specialize (BS img).
  specialize (BP img). specialize (RT img).
  destruct (sys_size img) as [width height]. cbn [fst snd] in *.
  cbn [w_fs w_trace].
  destruct (sys_crop img (crop_box width height)) as [c|e] eqn:Ec.
  2:{ cbn [w_fs w_trace]. specialize (Hd e _ _ (BC e eq_refl eq_refl)).
      destruct (sys_print _ (w_fs w)) as [[]|e']; cbn [w_fs w_trace];
        rewrite <- !app_assoc; exact Hd. }
  cbn [w_fs w_trace].
  destruct (sys_resize c size LANCZOS) as [r|e] eqn:Er.
  2:{ cbn [w_fs w_trace]. specialize (Hd e _ _ (BR c e eq_refl eq_refl Er)).
      destruct (sys_print _ (w_fs w)) as [[]|e']; cbn [w_fs w_trace];
        rewrite <- !app_assoc; exact Hd. }
  cbn [w_fs w_trace].
  destruct (sys_save r _ "PNG" (w_fs w)) as [[[]|e] fs'] eqn:Es.
  2:{ cbn [w_fs w_trace].
      specialize (Hd e _ _ (BS c r e fs' eq_refl eq_refl Er Es)).
      destruct (sys_print _ fs') as [[]|e']; cbn [w_fs w_trace];
        rewrite <- !app_assoc; exact Hd. }
  cbn [w_fs w_trace].
  destruct (sys_print _ fs') as [[]|e] eqn:Ep.
  - cbn [w_fs w_trace]. rewrite <- !app_assoc.
    exact (RT c r fs' eq_refl eq_refl Er Es Ep).
  - cbn [w_fs w_trace].
    specialize (Hd e _ _ (BP c r fs' e eq_refl eq_refl Er Es Ep)).
    destruct (sys_print _ fs') as [[]|e']; cbn [w_fs w_trace];
      rewrite <- !app_assoc; exact Hd.
Qed.

End Runs.

(** Inversion of a run of [process_image] into its cases: the run that
    returns [True], and for each of the five places where the body can
    raise, the run whose handler returns and the run whose handler
    raises. *)
Ltac run_cases p o s w :=
  let R := fresh "R" in
  let B := fresh "B" in
  pose proof (process_image_run p o s w) as R;
  inversion R as [img c r fs' Eo Ec Er Es Ep Hr
                 | e fs' evs B Eh Hr
                 | e fs' evs e' B Eh Hr];
  clear R;
  [ | inversion B as [e0 Eo | img e0 Eo Ec | img c e0 Eo Ec Er
                     | img c r e0 fs0 Eo Ec Er Es
                     | img c r fs0 e0 Eo Ec Er Es Ep]; subst; clear B ..].

(** ** Lemmas on the traces and on the loop *)

Section Batch.
Context {fs image : Type} `{Platform fs image}.

Lemma opened_app (a b : list event) : opened (a ++ b) = (opened a ++ opened b)%list.
Proof. apply flat_map_app. Qed.

Lemma cropped_app (a b : list event) :
  cropped (a ++ b) = (cropped a ++ cropped b)%list.
Proof. apply flat_map_app. Qed.

Lemma saved_app (a b : list event) : saved (a ++ b) = (saved a ++ saved b)%list.
Proof. apply flat_map_app. Qed.

Lemma printed_app (a b : list event) :
  printed (a ++ b) = (printed a ++ printed b)%list.
Proof. apply flat_map_app. Qed.


(** Whatever its outcome, [process_image] opens its input path and no
    other. *)
Lemma process_image_opens (input_path output_folder : string)
  (size : Z * Z) (w : world fs) :
  opened (w_trace (snd (process_image input_path output_folder size w)))
  = (opened (w_trace w) ++ [input_path])%list.
Proof.
  run_cases input_path output_folder size w;
    unfold extend; cbn [snd w_trace]; rewrite opened_app; reflexivity.
Qed.

(** [process_image] returns when the error line of its input path can be
    printed. *)
Lemma process_image_returns (input_path output_folder : string)
  (size : Z * Z) (w : world fs) :
  (forall e s, sys_print (error_line input_path e) s = Ok tt) ->
  exists b w', process_image input_path output_folder size w = (Ok b, w').
Proof.
  intros Hp.
  run_cases input_path output_folder size w;
    try (rewrite Hp in Eh; discriminate Eh); eauto.
Qed.

Lemma count_true_bounds (bs : list bool) :
  0 <= count_true bs <= Z.of_nat (List.length bs).
Proof.
  induction bs as [|[] bs IH]; cbn [count_true List.length]; lia.
Qed.

(** The loop of [batch_process_images] is one call of [process_image] per
    file: when all the calls return, its counter has grown by the number
    of calls that returned [True] and every file has been opened; when a
    call raises, the loop raises with it. *)
Lemma process_files_transform_each (input_folder output_folder : string)
  (size : Z * Z) (jpg_files : list string) :
  forall (successful : Z) (w : world fs),
  match transform_each input_folder output_folder size jpg_files w with
  | (Ok bs, w') =>
      process_files input_folder output_folder size jpg_files successful w
      = (Ok (successful + count_true bs), w')
      /\ List.length bs = List.length jpg_files
      /\ opened (w_trace w')
         = (opened (w_trace w) ++ map (join input_folder) jpg_files)%list
  | (Raise e, w') =>
      process_files input_folder output_folder size jpg_files successful w
      = (Raise e, w')
  end.
Proof.
  induction jpg_files as [|f rest IH]; intros successful w.
  - cbn. unfold ret. rewrite Z.add_0_r, app_nil_r. auto.
  - cbn [transform_each process_files]. unfold bind at 1 3 4.
    pose proof (process_image_opens (join input_folder f) output_folder
                  size w) as Ho.
    destruct (process_image (join input_folder f) output_folder size w)
      as [[b|e] w1]; [|reflexivity].
    cbn [snd] in Ho.
    specialize (IH (if b then successful + 1 else successful) w1).
    unfold bind.
    destruct (transform_each input_folder output_folder size rest w1)
      as [[bs|e] w2]; [|exact IH].
    destruct IH as (Hp & Hl & Ho2). unfold ret.
    cbn [count_true List.length map]. rewrite Hp, Ho2, Ho, <- app_assoc.
    repeat split; try reflexivity; [|now rewrite Hl].
    f_equal. f_equal. destruct b; lia.
Qed.

(** Every call of the loop returns when the error lines of the files can
    be printed. *)
Lemma transform_each_returns (input_folder output_folder : string)
  (size : Z * Z) (jpg_files : list string) :
  prints_errors input_folder jpg_files ->
  forall w : world fs,
  exists bs w',
    transform_each input_folder output_folder size jpg_files w = (Ok bs, w').
Proof.
  induction jpg_files as [|f rest IH]; intros Hp w.
  - now exists [], w.
  - cbn [transform_each]. unfold bind.
    destruct (process_image_returns (join input_folder f) output_folder
                size w) as (b & w1 & ->).
    { intros e s0. apply Hp. now left. }
    destruct (IH (fun f' e s0 Hin => Hp f' e s0 (or_intror Hin)) w1)
      as (bs & w2 & ->).
    now exists (b :: bs), w2.
Qed.

(** ** The output file *)

(** C5: an input path is [dir ++ stem ++ ext] with [stem ++ ext] its base
    name and [ext] the extension of the base name; the output file name is
    [stem ++ ".png"], and the output path is that name joined to the output
    folder (with one separator, unless the folder is empty or ends with
    one).  [process_image] saves to no other path, always in the format
    [PNG], and a run that returns [True] has saved to it.  The input
    [photo.JPEG] gives [photo.png]. *)
Theorem output_name_replaces_extension (input_path output_folder : string)
  (size : Z * Z) (w : world fs) :
  exists dir stem ext,
    input_path = dir ++ stem ++ ext
    /\ (dir = EmptyString \/ exists d, dir = d ++ "/")
    /\ basename input_path = stem ++ ext
    /\ contains sep (stem ++ ext) = false
    /\ splits_extension stem ext
    /\ output_filename_of input_path = stem ++ ".png"
    /\ output_path_of input_path output_folder
       = (if (String.eqb output_folder EmptyString
              || endswith output_folder "/")%bool
          then output_folder ++ stem ++ ".png"
          else output_folder ++ "/" ++ stem ++ ".png")
    /\ (forall p fmt,
          In (EvSave p fmt)
             (w_trace (snd (process_image input_path output_folder size w)))
          -> In (EvSave p fmt) (w_trace w)
             \/ (p = output_path_of input_path output_folder
                 /\ fmt = "PNG"))
    /\ (fst (process_image input_path output_folder size w) = Ok true ->
        saved (w_trace (snd (process_image input_path output_folder size w)))
        = (saved (w_trace w)
           ++ [output_path_of input_path output_folder])%list)
    /\ output_filename_of "photo.JPEG" = "photo.png".
Proof.
  destruct (basename_spec input_path) as (dir & Hp & Hc & Hdir).
  destruct (splitext_spec (basename input_path) Hc)
    as (stem & ext & Hs & Hf & Hx).
  exists dir, stem, ext.
  assert (output_filename_of input_path = stem ++ ".png") as Hn
      by (unfold output_filename_of; now rewrite Hs).
  assert (contains sep stem = false) as Hstem.
  { rewrite Hf, contains_append in Hc. now apply orb_false_elim in Hc. }
  split; [now rewrite <- Hf|]. split; [exact Hdir|].
  split; [exact Hf|]. split; [now rewrite <- Hf|]. split; [exact Hx|].
  split; [exact Hn|]. split.
  { unfold output_path_of. rewrite Hn. apply join_relative.
    now apply startswith_sep_append. }
  split; [|split; [|reflexivity]].
  - intros p fmt.
    run_cases input_path output_folder size w; try rewrite <- Hr;
      unfold extend; cbn [snd w_trace]; rewrite in_app_iff;
      (intros [Hin|Hin]; [now left|]); simpl in Hin;
      repeat (destruct Hin as [Hin|Hin]; try discriminate Hin);
      try contradiction; right; injection Hin as <- <-; now split.
  - run_cases input_path output_folder size w; try rewrite <- Hr;
      cbn [fst]; try discriminate; intros _.
    unfold extend; cbn [snd w_trace]. rewrite saved_app. reflexivity.
Qed.

(** ** Errors inside [process_image] *)


(** ** The batch *)

(** C7: when the listing has given a non-empty list of matched files and
    their number has been printed, the batch calls [process_image] once
    per file, in order.  When all the calls return, the last thing the
    batch does is print the summary [successful of total], where [total]
    is the number of matched files and [successful] the number of calls
    that returned [True], so [0 <= successful <= total]; when a call
    raises, the batch raises with it and prints no summary.  All the calls
    return when the error lines of the files can be printed. *)
Theorem summary_counts_successes (input_folder output_folder : string)
  (size : Z * Z) (w w1 : world fs) (jpg_files : list string) :
  (ensure_output_folder output_folder ;; list_jpg_files input_folder) w
  = (Ok jpg_files, w1) ->
  jpg_files <> [] ->
  sys_print (found_line jpg_files) (w_fs w1) = Ok tt ->
  ((exists bs w2,
      transform_each input_folder output_folder size jpg_files
        (log (EvPrint (found_line jpg_files)) w1) = (Ok bs, w2)
      /\ List.length bs = List.length jpg_files
      /\ batch_process_images input_folder output_folder size w
         = print (summary_line (count_true bs)
                    (Z.of_nat (List.length jpg_files))) w2
      /\ 0 <= count_true bs <= Z.of_nat (List.length jpg_files))
   \/ (exists e w2,
         transform_each input_folder output_folder size jpg_files
           (log (EvPrint (found_line jpg_files)) w1) = (Raise e, w2)
         /\ batch_process_images input_folder output_folder size w
            = (Raise e, w2)))
  /\ (prints_errors input_folder jpg_files ->
      exists bs w2,
        transform_each input_folder output_folder size jpg_files
          (log (EvPrint (found_line jpg_files)) w1) = (Ok bs, w2)).
Proof.
  intros Hl Hne Hf. split; [|intros Hp; now apply transform_each_returns].
  assert (forall r,
             process_files input_folder output_folder size jpg_files 0
               (log (EvPrint (found_line jpg_files)) w1) = r ->
             batch_process_images input_folder output_folder size w
             = match r with
               | (Ok n, w2) =>
                   print (summary_line n (Z.of_nat (List.length jpg_files)))
                     w2
               | (Raise e, w2) => (Raise e, w2)
               end) as K.
  { intros r Hr. unfold batch_process_images. unfold bind at 1 2.
    unfold bind in Hl.
    destruct (ensure_output_folder output_folder w) as [[[]|e] w0];
      [|discriminate Hl].
    rewrite Hl. destruct jpg_files as [|f rest]; [congruence|].
    unfold bind, print at 1. rewrite Hf. unfold log in *. rewrite Hr.
    now destruct r as [[n|e] w2]. }
  pose proof (process_files_transform_each input_folder output_folder size
                jpg_files 0 (log (EvPrint (found_line jpg_files)) w1)) as R.
  destruct (transform_each input_folder output_folder size jpg_files
              (log (EvPrint (found_line jpg_files)) w1)) as [[bs|e] w2].
  - left. destruct R as (Hp & Hlen & _). exists bs, w2.
    split; [reflexivity|]. split; [exact Hlen|].
    split; [|rewrite <- Hlen; apply count_true_bounds].
    now rewrite (K _ Hp).
  - right. exists e, w2. split; [reflexivity|]. now rewrite (K _ R).
Qed.

(** C8: when the output folder does not exist and [os.makedirs] raises
    [e], the batch raises [e], having made no call but [os.path.exists]
    and [os.makedirs]: nothing is listed and nothing is opened, and
    [process_image] would have opened its input path first. *)
Theorem makedirs_failure_propagates (input_folder output_folder : string)
  (size : Z * Z) (w : world fs) (e : exn) (fs' : fs) :
  sys_exists output_folder (w_fs w) = false ->
  sys_makedirs output_folder (w_fs w) = (Raise e, fs') ->
  batch_process_images input_folder output_folder size w
  = (Raise e,
     World fs' (w_trace w
                ++ [EvExists output_folder; EvMakedirs output_folder]))
  /\ opened (w_trace (snd (batch_process_images input_folder output_folder
                             size w)))
     = opened (w_trace w)
  /\ (forall input_path w0,
        opened (w_trace (snd (process_image input_path output_folder size
                                w0)))
        = (opened (w_trace w0) ++ [input_path])%list).
Proof.
  intros He Hm.
  assert (batch_process_images input_folder output_folder size w
          = (Raise e,
             World fs' (w_trace w
                        ++ [EvExists output_folder;
                            EvMakedirs output_folder]))) as E.
  { unfold batch_process_images, ensure_output_folder, bind, os_path_exists,
      os_makedirs, log. cbn [w_fs w_trace]. rewrite He.
    cbn [negb w_fs w_trace]. rewrite Hm. now rewrite <- app_assoc. }
  split; [exact E|]. split.
  - rewrite E. cbn [snd w_trace]. rewrite opened_app. cbn.
    apply app_nil_r.
  - intros input_path w0. apply process_image_opens.
Qed.

(** C9: the box given to [crop] depends on the width and the height of
    the opened image only: two runs of [process_image], on any paths,
    output folders, target sizes and worlds, whose images have the same
    positive width and height, crop with the same box,
    [crop_box width height]. *)
Theorem crop_box_depends_on_size_only
  (path1 path2 folder1 folder2 : string) (size1 size2 : Z * Z)
  (w1 w2 : world fs) (img1 img2 : image) (width height : Z) :
  0 < width -> 0 < height ->
  sys_open path1 (w_fs w1) = Ok img1 -> sys_size img1 = (width, height) ->
  sys_open path2 (w_fs w2) = Ok img2 -> sys_size img2 = (width, height) ->
  cropped (w_trace (snd (process_image path1 folder1 size1 w1)))
  = (cropped (w_trace w1) ++ [crop_box width height])%list
  /\ cropped (w_trace (snd (process_image path2 folder2 size2 w2)))
     = (cropped (w_trace w2) ++ [crop_box width height])%list.
Proof.
  intros _ _ O1 S1 O2 S2.
  assert (forall p o s (w : world fs) img,
             sys_open p (w_fs w) = Ok img ->
             sys_size img = (width, height) ->
             cropped (w_trace (snd (process_image p o s w)))
             = (cropped (w_trace w) ++ [crop_box width height])%list) as K.
  { intros p o s w i O S.
    run_cases p o s w; try congruence;
      assert (img = i) as -> by congruence;
      unfold extend, box_of; cbn [snd w_trace];
      rewrite cropped_app, S; reflexivity. }
  split; [exact (K _ _ _ _ _ O1 S1) | exact (K _ _ _ _ _ O2 S2)].
Qed.

(** C1, as the program has it: when no listed name is selected and the
    lines of the run can be printed, the batch returns without raising
    after printing that no file was found.  If the output folder existed,
    the file system is unchanged; if it did not, the folder has been
    created first, and that is the only change.  No image is opened. *)
Theorem no_jpeg_run_creates_missing_folder
  (input_folder output_folder : string) (size : Z * Z) (w : world fs)
  (fs1 : fs) (names : list string) :
  (if sys_exists output_folder (w_fs w) then fs1 = w_fs w
   else sys_makedirs output_folder (w_fs w) = (Ok tt, fs1)
        /\ sys_print ("Created output directory: " ++ output_folder) fs1
           = Ok tt) ->
  sys_listdir input_folder fs1 = Ok names ->
  filter is_jpg names = [] ->
  sys_print ("No JPG files found in " ++ input_folder) fs1 = Ok tt ->
  batch_process_images input_folder output_folder size w
  = (Ok tt,
     World fs1
       (w_trace w
        ++ (if sys_exists output_folder (w_fs w)
            then [EvExists output_folder]
            else [EvExists output_folder; EvMakedirs output_folder;
                  EvPrint ("Created output directory: " ++ output_folder)])
        ++ [EvListdir input_folder;
            EvPrint ("No JPG files found in " ++ input_folder)])).
Proof.
  intros Hf Hl Hn Hp.
  unfold batch_process_images, ensure_output_folder, list_jpg_files, bind,
    os_path_exists, os_makedirs, os_listdir, print, ret, log,
    none_found_line.
  cbn [w_fs w_trace].
  destruct (sys_exists output_folder (w_fs w)); cbn [negb w_fs w_trace].
  - subst fs1. cbn [w_fs w_trace]. rewrite Hl, Hn. cbn [w_fs w_trace].
    rewrite Hp. now rewrite <- !app_assoc.
  - destruct Hf as [Hm Hc]. rewrite Hm. cbn [w_fs w_trace]. rewrite Hc.
    cbn [w_fs w_trace]. rewrite Hl, Hn. cbn [w_fs w_trace].
    rewrite Hp. now rewrite <- !app_assoc.
Qed.

End Batch.

(** ** The properties on concrete folders *)

#[local] Existing Instance MemFS.platform.



Lemma summary_counts_successes_witness :
  exists bs w2,
    batch_process_images "photos" "out" (500, 500)
      (MemFS.start MemFS.photos)
    = print (summary_line (count_true bs) 4) w2
    /\ bs = [true; true; false; true]
    /\ summary_line (count_true bs) 4
       = "Processing complete. 3 of 4 images converted successfully.".
Proof.
  destruct (summary_counts_successes "photos" "out" (500, 500)
              (MemFS.start MemFS.photos)
              (snd ((ensure_output_folder "out" ;; list_jpg_files "photos")
                      (MemFS.start MemFS.photos)))
              ["a.jpg"; "b.JPG"; "bad.jpg"; "c.jpeg"])
    as [[(bs & w2 & Ht & _ & Hb & _)|(e & w2 & Ht & _)] _].
  - vm_compute. reflexivity.
  - discriminate.
  - reflexivity.
  - exists bs, w2. split; [exact Hb|].
    vm_compute in Ht. injection Ht as <- _.
    split; reflexivity.
  - vm_compute in Ht. discriminate Ht.
Defined.

Lemma makedirs_failure_propagates_witness :
  batch_process_images "photos" "out" (500, 500) (MemFS.start MemFS.locked)
  = (Raise (PyException "[Errno 13] Permission denied: 'out'"),
     World MemFS.locked [EvExists "out"; EvMakedirs "out"]).
Proof.
  apply (makedirs_failure_propagates "photos" "out" (500, 500)
           (MemFS.start MemFS.locked)
           (PyException "[Errno 13] Permission denied: 'out'")
           MemFS.locked);
    reflexivity.
Defined.

Lemma crop_box_depends_on_size_only_witness :
  cropped (w_trace (snd (process_image "photos/a.jpg" "out" (500, 500)
                           (MemFS.start MemFS.photos))))
  = [crop_box 800 600]
  /\ cropped (w_trace (snd (process_image "photos/a.jpg" "thumbs" (64, 64)
                              (MemFS.start MemFS.locked))))
     = [crop_box 800 600].
Proof.
  apply (crop_box_depends_on_size_only "photos/a.jpg" "photos/a.jpg"
           "out" "thumbs" (500, 500) (64, 64)
           (MemFS.start MemFS.photos) (MemFS.start MemFS.locked)
           (800, 600) (800, 600) 800 600);
    first [lia | reflexivity].
Defined.

Lemma no_jpeg_run_creates_missing_folder_witness :
  batch_process_images "docs" "out" (500, 500) (MemFS.start MemFS.docs)
  = (Ok tt,
     World (MemFS.Make [("out", []);
                        ("docs", ["notes.txt"; "scan.Jpg"; "logo.png"])]
              [] [] [])
       [EvExists "out"; EvMakedirs "out";
        EvPrint "Created output directory: out";
        EvListdir "docs"; EvPrint "No JPG files found in docs"]).
Proof.
  exact (no_jpeg_run_creates_missing_folder "docs" "out" (500, 500)
           (MemFS.start MemFS.docs)
           (MemFS.Make [("out", []);
                        ("docs", ["notes.txt"; "scan.Jpg"; "logo.png"])]
              [] [] [])
           ["notes.txt"; "scan.Jpg"; "logo.png"]
           (conj eq_refl eq_refl) eq_refl eq_refl eq_refl).
Defined.

(** C1, as the specification has it, fails on the folder [docs], which
    holds no JPEG name: the output folder [out] does not exist before the
    run and exists after it, although no file was found. *)
Lemma no_jpeg_run_still_creates_output_folder :
  sys_listdir "docs" MemFS.docs = Ok ["notes.txt"; "scan.Jpg"; "logo.png"]
  /\ filter is_jpg ["notes.txt"; "scan.Jpg"; "logo.png"] = []
  /\ sys_exists "out" MemFS.docs = false
  /\ fst (batch_process_images "docs" "out" (500, 500)
            (MemFS.start MemFS.docs)) = Ok tt
  /\ sys_exists "out"
       (w_fs (snd (batch_process_images "docs" "out" (500, 500)
                     (MemFS.start MemFS.docs)))) = true
  /\ printed (w_trace (snd (batch_process_images "docs" "out" (500, 500)
                              (MemFS.start MemFS.docs))))
     = ["Created output directory: out"; "No JPG files found in docs"].
Proof. repeat split; vm_compute; reflexivity. Qed.

(** * Further properties of the program *)

(** ** File names, continued *)

Lemma rfind_from_absent (c : ascii) (s : string) (i : Z) :
  0 <= i -> contains c s = false -> rfind_from i c s = -1.
Proof.
  intros Hi Hc.
  destruct (rfind_from_spec c s i Hi) as [[_ E]|(k & rest & _ & Hd & _)];
    [exact E|].
  apply drop_contains in Hd. congruence.
Qed.

Lemma rfind_from_found (c : ascii) (s : string) (i : Z) :
  0 <= i -> contains c s = true -> 0 <= rfind_from i c s.
Proof.
  intros Hi Hc.
  destruct (rfind_from_spec c s i Hi) as [[E _]|(k & rest & -> & _)];
    [congruence | lia].
Qed.

Lemma rfind_from_append (c : ascii) (a b : string) (i : Z) :
  0 <= i -> contains c b = true ->
  rfind_from i c (a ++ b) = rfind_from (i + Z.of_nat (String.length a)) c b.
Proof.
  revert i; induction a as [|d a IH]; intros i Hi Hc.
  - simpl. now rewrite Z.add_0_r.
  - cbn [append rfind_from String.length].
    rewrite (IH (i + 1) ltac:(lia) Hc).
    replace (i + 1 + Z.of_nat (String.length a))
      with (i + Z.of_nat (S (String.length a))) by lia.
    pose proof (rfind_from_found c b (i + Z.of_nat (S (String.length a)))
                  ltac:(lia) Hc) as F.
    destruct (Z.leb_spec 0 (rfind_from (i + Z.of_nat (S (String.length a)))
                              c b)); [reflexivity | lia].
Qed.

(** The last occurrence of [c] in [a ++ c ++ rest], when [c] does not
    occur in [rest], is at the index [len(a)]. *)
Lemma rfind_last (c : ascii) (a rest : string) :
  contains c rest = false ->
  rfind c (a ++ String c rest) = Z.of_nat (String.length a).
Proof.
  intros Hc. unfold rfind.
  rewrite rfind_from_append;
    [|lia | simpl; now rewrite Ascii.eqb_refl].
  cbn [rfind_from].
  rewrite (rfind_from_absent c rest (0 + Z.of_nat (String.length a) + 1)
             ltac:(lia) Hc).
  rewrite Ascii.eqb_refl. cbn [Z.leb Z.compare]. apply Z.add_0_l.
Qed.

Lemma startswith_no_sep (f : string) :
  contains sep f = false -> startswith f "/" = false.
Proof.
  destruct f as [|c f]; [reflexivity|]. simpl. intros Hc.
  apply orb_false_elim in Hc as [Hc _].
  unfold startswith. cbn [String.length take String.eqb].
  unfold sep in Hc. now rewrite Hc.
Qed.

Lemma basename_after_sep (a f : string) :
  contains sep f = false -> basename (a ++ String sep f) = f.
Proof.
  intros Hc. unfold basename. rewrite (rfind_last sep a f Hc).
  replace (Z.to_nat (Z.of_nat (String.length a) + 1))
    with (String.length (a ++ String sep EmptyString))
    by (rewrite length_append; simpl; lia).
  replace (a ++ String sep f) with ((a ++ String sep EmptyString) ++ f)
    by (now rewrite append_assoc).
  apply drop_append.
Qed.

Lemma basename_no_sep (f : string) :
  contains sep f = false -> basename f = f.
Proof.
  intros Hc. unfold basename. now rewrite (rfind_absent _ _ Hc).
Qed.

(** [os.path.splitext] of a name [stem ++ "." ++ e] whose last dot is the
    one before [e]: the extension is ["." ++ e] unless [stem] is made of
    dots only, and then there is none. *)
Lemma splitext_at_last_dot (stem e : string) :
  contains sep stem = false -> contains sep e = false ->
  contains extsep e = false ->
  splitext (stem ++ String extsep e)
  = if all_dots stem then (stem ++ String extsep e, EmptyString)
    else (stem, String extsep e).
Proof.
  intros Hs He Hd. unfold splitext.
  assert (contains sep (stem ++ String extsep e) = false) as Hc
      by (rewrite contains_append, Hs; simpl; now rewrite He).
  rewrite (rfind_absent _ _ Hc), (rfind_last extsep stem e Hd).
  destruct (Z.gtb_spec (Z.of_nat (String.length stem)) (-1)); [|lia].
  replace (Z.to_nat (Z.of_nat (String.length stem) - (-1 + 1)))
    with (String.length stem) by lia.
  replace (Z.to_nat (-1 + 1)) with 0%nat by lia.
  rewrite Nat2Z.id. cbn [drop].
  rewrite has_non_dot_spec by (rewrite length_append; lia).
  rewrite take_append, drop_append.
  now destruct (all_dots stem).
Qed.

(** The tails of the four suffixes hold neither a dot nor a separator. *)
Lemma jpg_extension_inv (ext : string) :
  In ext jpg_extensions ->
  exists e, ext = String extsep e /\ contains sep e = false
            /\ contains extsep e = false.
Proof.
  intros [<-|[<-|[<-|[<-|[]]]]]; eexists; repeat split; reflexivity.
Qed.

Lemma is_jpg_app_extension (stem ext : string) :
  In ext jpg_extensions -> is_jpg (stem ++ ext) = true.
Proof.
  intros Hin. unfold is_jpg, endswith_any. apply existsb_exists.
  exists ext. split; [exact Hin | apply endswith_app].
Qed.

(** X1: the file name [process_image] recovers from the path that the
    batch built is the listed name: for a name without separator,
    [os.path.basename(os.path.join(input_folder, f))] is [f]. *)
Theorem basename_join_is_listed_name (input_folder f : string) :
  contains sep f = false -> basename (join input_folder f) = f.
Proof.
  intros Hc. unfold join. rewrite (startswith_no_sep f Hc).
  destruct (String.eqb_spec input_folder EmptyString) as [->|Hne].
  - simpl. now apply basename_no_sep.
  - cbn [orb]. destruct (endswith input_folder "/") eqn:E.
    + apply endswith_iff in E as [a ->]. rewrite append_assoc.
      now apply basename_after_sep.
    + now apply basename_after_sep.
Qed.

Lemma basename_join_is_listed_name_witness :
  basename (join "in/photos" "a.b.jpg") = "a.b.jpg".
Proof.
  apply (basename_join_is_listed_name "in/photos" "a.b.jpg"). reflexivity.
Defined.

(** X2: the four case variants of a name collide: for a stem without
    separator that is not made of dots only, each of [stem ++ ".jpg"],
    [stem ++ ".jpeg"], [stem ++ ".JPG"], [stem ++ ".JPEG"] is selected and
    all of them are saved to the same path, the output folder joined with
    [stem ++ ".png"]. *)
Theorem case_variants_share_output (input_folder output_folder stem : string)
  (ext : string) :
  contains sep stem = false -> all_dots stem = false ->
  In ext jpg_extensions ->
  is_jpg (stem ++ ext) = true
  /\ output_filename_of (join input_folder (stem ++ ext)) = stem ++ ".png"
  /\ output_path_of (join input_folder (stem ++ ext)) output_folder
     = join output_folder (stem ++ ".png").
Proof.
  intros Hs Hd Hin.
  destruct (jpg_extension_inv ext Hin) as (e & -> & He & Hx).
  assert (output_filename_of (join input_folder (stem ++ String extsep e))
          = stem ++ ".png") as Hn.
  { unfold output_filename_of. rewrite basename_join_is_listed_name.
    - rewrite (splitext_at_last_dot stem e Hs He Hx), Hd. reflexivity.
    - rewrite contains_append, Hs. simpl. now rewrite He. }
  split; [now apply is_jpg_app_extension|]. split; [exact Hn|].
  unfold output_path_of. now rewrite Hn.
Qed.

Lemma case_variants_share_output_witness :
  (is_jpg "a.jpg" = true /\ is_jpg "a.JPEG" = true)
  /\ output_path_of (join "photos" "a.jpg") "out"
     = output_path_of (join "photos" "a.JPEG") "out".
Proof.
  destruct (case_variants_share_output "photos" "out" "a" ".jpg"
              eq_refl eq_refl (or_introl eq_refl)) as (S1 & _ & P1).
  destruct (case_variants_share_output "photos" "out" "a" ".JPEG"
              eq_refl eq_refl
              (or_intror (or_intror (or_intror (or_introl eq_refl)))))
    as (S2 & _ & P2).
  split; [split; [exact S1 | exact S2]|].
  exact (eq_trans P1 (eq_sym P2)).
Defined.

(** X3: a name made of dots followed by one of the four suffixes, such as
    [.jpg], is selected, but [os.path.splitext] finds no extension in it:
    the output file name is the whole name with [.png] appended. *)
Theorem dot_name_keeps_suffix (input_folder dots ext : string) :
  all_dots dots = true -> In ext jpg_extensions ->
  is_jpg (dots ++ ext) = true
  /\ output_filename_of (join input_folder (dots ++ ext))
     = dots ++ ext ++ ".png".
Proof.
  intros Hd Hin.
  destruct (jpg_extension_inv ext Hin) as (e & -> & He & Hx).
  assert (contains sep dots = false) as Hs.
  { clear - Hd. induction dots as [|c d IH]; [reflexivity|].
    simpl in *. apply andb_prop in Hd as [Hc Hd].
    apply Ascii.eqb_eq in Hc. subst c. rewrite (IH Hd). reflexivity. }
  split; [apply is_jpg_app_extension; exact Hin|].
  unfold output_filename_of. rewrite basename_join_is_listed_name.
  - rewrite (splitext_at_last_dot dots e Hs He Hx), Hd. cbn [fst].
    now rewrite append_assoc.
  - rewrite contains_append, Hs. simpl. now rewrite He.
Qed.

Lemma dot_name_keeps_suffix_witness :
  is_jpg ".jpg" = true
  /\ output_filename_of (join "photos" ".jpg") = ".jpg.png".
Proof.
  exact (dot_name_keeps_suffix "photos" EmptyString ".jpg"
           eq_refl (or_introl eq_refl)).
Defined.

(** X4: an output file name is never selected as an input: whatever the
    input path, the name [process_image] writes does not end with one of
    the four suffixes. *)
Theorem output_name_is_not_selected (input_path : string) :
  is_jpg (output_filename_of input_path) = false.
Proof.
  unfold output_filename_of. apply is_jpg_app_unrelated. reflexivity.
Qed.

(** X5: the crop box of the transposed image is the transposed crop box:
    exchanging width and height exchanges left with top and right with
    bottom. *)
Theorem crop_box_transpose (width height : Z) :
  crop_box height width
  = (box_top (crop_box width height), box_left (crop_box width height),
     box_bottom (crop_box width height), box_right (crop_box width height)).
Proof.
  unfold crop_box.
  destruct (Z.gtb_spec width height) as [L|L];
    destruct (Z.gtb_spec height width) as [L'|L'];
    cbn [box_left box_top box_right box_bottom]; try reflexivity; try lia.
  assert (width = height) as -> by lia.
  rewrite Z.sub_diag. reflexivity.
Qed.

(** ** The calls of a run *)

Section Calls.
Context {fs image : Type} `{Platform fs image}.

Lemma made_app (a b : list event) : made (a ++ b) = (made a ++ made b)%list.
Proof. apply flat_map_app. Qed.

Lemma loop_event_weaken (input_folder output_folder : string)
  (size : Z * Z) (files files' : list string) (ev : event) :
  incl files files' ->
  loop_event input_folder output_folder size files ev ->
  loop_event input_folder output_folder size files' ev.
Proof.
  intros Hi. destruct ev; cbn; try tauto.
  - intros (f & Hf & ->). exists f. split; [now apply Hi | reflexivity].
  - intros (-> & f & Hf & ->). split; [reflexivity|].
    exists f. split; [now apply Hi | reflexivity].
Qed.

Lemma loop_events_made (input_folder output_folder : string)
  (size : Z * Z) (files : list string) (evs : list event) :
  Forall (loop_event input_folder output_folder size files) evs ->
  made evs = [].
Proof.
  induction 1 as [|ev evs Hev _ IH]; [reflexivity|].
  destruct ev; cbn in *; try exact IH; contradiction.
Qed.

Lemma loop_event_is_batch_event (input_folder output_folder : string)
  (size : Z * Z) (files : list string) (ev : event) :
  loop_event input_folder output_folder size files ev ->
  batch_event input_folder output_folder size files ev.
Proof. destruct ev; cbn; tauto. Qed.

(** The calls of one run of [process_image] on a file of the list,
    whatever its outcome. *)
Lemma process_image_events (input_folder output_folder : string)
  (size : Z * Z) (files : list string) (f : string) (w : world fs) :
  In f files ->
  exists r fs' evs,
    process_image (join input_folder f) output_folder size w
    = (r, World fs' (w_trace w ++ evs))
    /\ Forall (loop_event input_folder output_folder size files) evs.
Proof.
  intros Hf.
  assert (forall img, loop_event input_folder output_folder size files
                        (EvCrop (box_of img))) as Hcrop
      by (intros img; cbn; unfold box_of; eauto).
  assert (loop_event input_folder output_folder size files
            (EvOpen (join input_folder f))) as Hopen by (cbn; eauto).
  assert (loop_event input_folder output_folder size files
            (EvSave (output_path_of (join input_folder f) output_folder)
               "PNG")) as Hsave by (cbn; eauto).
  assert (loop_event input_folder output_folder size files
            (EvResize size LANCZOS)) as Hres by (cbn; auto).
  run_cases (join input_folder f) output_folder size w;
    eexists; eexists; eexists; (split; [reflexivity|]); cbn [app];
    repeat (apply Forall_cons;
            [first [exact Hopen | apply Hcrop | exact Hres | exact Hsave
                   | exact I]|]);
    apply Forall_nil.
Qed.

(** The calls of the loop, whatever its outcome: every call it makes is
    one of [loop_event]. *)
Lemma process_files_events (input_folder output_folder : string)
  (size : Z * Z) (files : list string) :
  forall (successful : Z) (w : world fs),
  exists r fs' evs,
    process_files input_folder output_folder size files successful w
    = (r, World fs' (w_trace w ++ evs))
    /\ Forall (loop_event input_folder output_folder size files) evs.
Proof.
  induction files as [|f rest IH]; intros successful w.
  - exists (Ok successful), (w_fs w), []. cbn. unfold ret.
    rewrite app_nil_r. destruct w. split; [reflexivity | constructor].
  - cbn [process_files]. unfold bind.
    destruct (process_image_events input_folder output_folder size
                (f :: rest) f w (or_introl eq_refl))
      as ([b|e] & fs1 & evs1 & -> & F1).
    + destruct (IH (if b then successful + 1 else successful)
                  (World fs1 (w_trace w ++ evs1)))
        as (r & fs2 & evs2 & -> & F2).
      exists r, fs2, (evs1 ++ evs2)%list. cbn [w_trace].
      rewrite <- app_assoc. split; [reflexivity|].
      apply Forall_app. split; [exact F1|].
      eapply Forall_impl; [|exact F2].
      intros ev. apply loop_event_weaken. now apply incl_tl.
    + now exists (Raise e), fs1, evs1.
Qed.

(** The ways [ensure_output_folder] goes. *)
Lemma ensure_output_folder_run (output_folder : string) (w : world fs) :
  ensure_output_folder output_folder w
  = if sys_exists output_folder (w_fs w) then
      (Ok tt, World (w_fs w) (w_trace w ++ [EvExists output_folder]))
    else
      match sys_makedirs output_folder (w_fs w) with
      | (Ok _, fs') =>
          (sys_print ("Created output directory: " ++ output_folder) fs',
           World fs'
             (w_trace w
              ++ [EvExists output_folder; EvMakedirs output_folder;
                  EvPrint ("Created output directory: " ++ output_folder)]))
      | (Raise e, fs') =>
          (Raise e,
           World fs'
             (w_trace w
              ++ [EvExists output_folder; EvMakedirs output_folder]))
      end.
Proof.
  unfold ensure_output_folder, bind, os_path_exists, os_makedirs, print,
    ret, log. cbn [w_fs w_trace].
  destruct (sys_exists output_folder (w_fs w)); cbn [negb w_fs w_trace];
    [reflexivity|].
  destruct (sys_makedirs output_folder (w_fs w)) as [[[]|e] fs'];
    cbn [w_fs w_trace]; now rewrite <- !app_assoc.
Qed.

(** [ensure_output_folder] opens nothing. *)
Lemma ensure_output_folder_opens (output_folder : string) (w : world fs) :
  opened (w_trace (snd (ensure_output_folder output_folder w)))
  = opened (w_trace w).
Proof.
  rewrite ensure_output_folder_run.
  destruct (sys_exists output_folder (w_fs w));
    [|destruct (sys_makedirs output_folder (w_fs w)) as [[[]|e'] fs']];
    cbn [snd w_trace]; rewrite opened_app; cbn; apply app_nil_r.
Qed.

Lemma batch_process_images_unfold (input_folder output_folder : string)
  (size : Z * Z) (w : world fs) :
  batch_process_images input_folder output_folder size w
  = match ensure_output_folder output_folder w with
    | (Ok _, w1) => list_and_process input_folder output_folder size w1
    | (Raise e, w1) => (Raise e, w1)
    end.
Proof. reflexivity. Qed.

(** The listing and the loop: when the listing raises, so does the run;
    otherwise, whatever the outcome, the run makes after the listing
    calls of the loop over the selected names only. *)
Lemma list_and_process_run (input_folder output_folder : string)
  (size : Z * Z) (w1 : world fs) :
  match sys_listdir input_folder (w_fs w1) with
  | Raise e =>
      list_and_process input_folder output_folder size w1
      = (Raise e, log (EvListdir input_folder) w1)
  | Ok names =>
      exists r fs' evs,
        list_and_process input_folder output_folder size w1
        = (r, World fs' (w_trace w1 ++ EvListdir input_folder :: evs))
        /\ Forall (loop_event input_folder output_folder size
                     (filter is_jpg names)) evs
  end.
Proof.
  unfold list_and_process, list_jpg_files, os_listdir.
  destruct (sys_listdir input_folder (w_fs w1)) as [names|e] eqn:El;
    unfold bind at 1 2; rewrite El; [|reflexivity].
  unfold ret. destruct (filter is_jpg names) as [|f rest] eqn:Ef.
  - exists (sys_print (none_found_line input_folder) (w_fs w1)), (w_fs w1),
      [EvPrint (none_found_line input_folder)].
    unfold print, log. cbn [w_fs w_trace]. rewrite <- app_assoc.
    repeat split. repeat constructor.
  - unfold bind, print, log. cbn [w_fs w_trace].
    destruct (sys_print (found_line (f :: rest)) (w_fs w1)) as [[]|e].
    2:{ exists (Raise e), (w_fs w1), [EvPrint (found_line (f :: rest))].
        rewrite <- app_assoc. repeat split. repeat constructor. }
    set (w2 := World (w_fs w1)
                 ((w_trace w1 ++ [EvListdir input_folder])
                  ++ [EvPrint (found_line (f :: rest))])).
    destruct (process_files_events input_folder output_folder size
                (f :: rest) 0 w2) as ([n|e] & fs' & evs & -> & F).
    + exists (sys_print (summary_line n
                           (Z.of_nat (List.length (f :: rest)))) fs'), fs',
        (EvPrint (found_line (f :: rest)) :: evs
         ++ [EvPrint (summary_line n
                        (Z.of_nat (List.length (f :: rest))))])%list.
      unfold w2. cbn [w_fs w_trace].
      rewrite <- !app_assoc. cbn [app].
      split; [reflexivity|].
      constructor; [exact I|]. apply Forall_app. split; [exact F|].
      repeat constructor.
    + exists (Raise e), fs', (EvPrint (found_line (f :: rest)) :: evs).
      unfold w2. cbn [w_trace]. rewrite <- !app_assoc. cbn [app].
      split; [reflexivity|]. constructor; [exact I | exact F].
Qed.


(** X7: [process_image] returns [False] only when the body of its [try]
    has raised an exception [e], in one of the steps open, crop, resize,
    save or in the print that follows them, and the handler has printed
    the error line of [e]; that print is the last call of the run, and if
    the run has not called [save] the file system is as it was. *)
Theorem process_image_false_only_when_body_raises
  (input_path output_folder : string) (size : Z * Z) (w : world fs) :
  fst (process_image input_path output_folder size w) = Ok false ->
  exists e fs' evs,
    body_raises input_path output_folder size w e fs' evs
    /\ sys_print (error_line input_path e) fs' = Ok tt
    /\ snd (process_image input_path output_folder size w)
       = World fs' (w_trace w ++ evs ++ [EvPrint (error_line input_path e)])
    /\ (saved (w_trace (snd (process_image input_path output_folder size
                               w)))
        = saved (w_trace w) ->
        fs' = w_fs w).
Proof.
  pose proof (process_image_run input_path output_folder size w) as R.
  inversion R as [img c r fs' Eo Ec Er Es Ep Hr
                 | e fs' evs B Eh Hr
                 | e fs' evs e' B Eh Hr];
    cbn [fst]; try discriminate; intros _.
  exists e, fs', evs. split; [exact B|]. split; [exact Eh|].
  split; [reflexivity|]. cbn [snd]. unfold extend. cbn [w_trace].
  rewrite !saved_app.
  destruct B; cbn [saved flat_map app]; try reflexivity; intros E;
    exfalso; rewrite <- (app_nil_r (saved (w_trace w))) in E at 2;
    apply app_inv_head in E; discriminate E.
Qed.

(** X8: when the output folder is in place and [os.listdir] raises [e],
    the batch raises [e] right after the listing: nothing is caught, no
    line is printed for it, no image is opened, and a folder created by
    this run stays. *)
Theorem listdir_failure_propagates (input_folder output_folder : string)
  (size : Z * Z) (w w1 : world fs) (e : exn) :
  ensure_output_folder output_folder w = (Ok tt, w1) ->
  sys_listdir input_folder (w_fs w1) = Raise e ->
  batch_process_images input_folder output_folder size w
  = (Raise e, World (w_fs w1) (w_trace w1 ++ [EvListdir input_folder]))
  /\ opened (w_trace w1 ++ [EvListdir input_folder]) = opened (w_trace w)
  /\ w_fs w1 = (if sys_exists output_folder (w_fs w) then w_fs w
                else snd (sys_makedirs output_folder (w_fs w))).
Proof.
  intros He Hl. split; [|split].
  - rewrite batch_process_images_unfold, He.
    pose proof (list_and_process_run input_folder output_folder size w1)
      as R.
    rewrite Hl in R. exact R.
  - pose proof (ensure_output_folder_opens output_folder w) as O.
    rewrite He in O. cbn [snd] in O.
    rewrite opened_app, O. cbn. apply app_nil_r.
  - rewrite ensure_output_folder_run in He.
    destruct (sys_exists output_folder (w_fs w));
      [injection He as <-; reflexivity|].
    destruct (sys_makedirs output_folder (w_fs w)) as [[[]|e'] fs'];
      [injection He as _ <-; reflexivity | discriminate He].
Qed.

(** The files the loop opens are the first files of the list, in order;
    all of them when the loop returns. *)
Lemma process_files_opened_prefix (input_folder output_folder : string)
  (size : Z * Z) (files : list string) :
  forall (successful : Z) (w : world fs),
  exists k,
    opened (w_trace (snd (process_files input_folder output_folder size
                            files successful w)))
    = (opened (w_trace w) ++ map (join input_folder) (firstn k files))%list.
Proof.
  induction files as [|f rest IH]; intros successful w.
  - exists 0%nat. cbn. now rewrite app_nil_r.
  - cbn [process_files]. unfold bind.
    pose proof (process_image_opens (join input_folder f) output_folder
                  size w) as Ho.
    destruct (process_image (join input_folder f) output_folder size w)
      as [[b|e] w1]; cbn [snd] in Ho.
    + destruct (IH (if b then successful + 1 else successful) w1)
        as [k Hk].
      exists (S k). rewrite Hk, Ho, <- app_assoc. reflexivity.
    + exists 1%nat. cbn [snd firstn map]. exact Ho.
Qed.

(** The batch after the output folder is in place and the listing has
    returned. *)
Lemma batch_after_listing (input_folder output_folder : string)
  (size : Z * Z) (w w1 : world fs) (names : list string) :
  ensure_output_folder output_folder w = (Ok tt, w1) ->
  sys_listdir input_folder (w_fs w1) = Ok names ->
  batch_process_images input_folder output_folder size w
  = match filter is_jpg names with
    | [] => print (none_found_line input_folder)
              (log (EvListdir input_folder) w1)
    | _ :: _ =>
        let w2 := log (EvPrint (found_line (filter is_jpg names)))
                    (log (EvListdir input_folder) w1) in
        match sys_print (found_line (filter is_jpg names)) (w_fs w1) with
        | Ok _ =>
            match process_files input_folder output_folder size
                    (filter is_jpg names) 0 w2 with
            | (Ok n, w3) =>
                print (summary_line n
                         (Z.of_nat (List.length (filter is_jpg names)))) w3
            | (Raise e, w3) => (Raise e, w3)
            end
        | Raise e => (Raise e, w2)
        end
    end.
Proof.
  intros He Hl. rewrite batch_process_images_unfold, He.
  unfold list_and_process, list_jpg_files, os_listdir.
  unfold bind at 1 2. rewrite Hl. unfold ret.
  destruct (filter is_jpg names) as [|f rest]; [reflexivity|].
  unfold bind, print at 1. unfold log at 1 2. cbn [w_fs w_trace].
  destruct (sys_print (found_line (f :: rest)) (w_fs w1)) as [[]|e];
    reflexivity.
Qed.

(** X9: when the output folder is in place and the listing returns, the
    files the batch opens are the first selected names of the listing,
    each joined to the input folder, once each and in the order of the
    listing, whatever the outcome of the run; and they are all the
    selected names when the number of files and the error lines of the
    files can be printed. *)
Theorem batch_opens_selected_in_order (input_folder output_folder : string)
  (size : Z * Z) (w w1 : world fs) (names : list string) :
  ensure_output_folder output_folder w = (Ok tt, w1) ->
  sys_listdir input_folder (w_fs w1) = Ok names ->
  (exists k,
     opened (w_trace (snd (batch_process_images input_folder output_folder
                             size w)))
     = (opened (w_trace w)
        ++ map (join input_folder) (firstn k (filter is_jpg names)))%list)
  /\ (sys_print (found_line (filter is_jpg names)) (w_fs w1) = Ok tt ->
      prints_errors input_folder (filter is_jpg names) ->
      opened (w_trace (snd (batch_process_images input_folder output_folder
                              size w)))
      = (opened (w_trace w)
         ++ map (join input_folder) (filter is_jpg names))%list).
Proof.
  intros He Hl.
  assert (opened (w_trace w1) = opened (w_trace w)) as Hw.
  { pose proof (ensure_output_folder_opens output_folder w) as O.
    now rewrite He in O. }
  rewrite (batch_after_listing _ _ _ _ _ _ He Hl).
  destruct (filter is_jpg names) as [|f rest].
  { unfold print, log. cbn [snd w_fs w_trace]. rewrite !opened_app, Hw.
    cbn. rewrite !app_nil_r.
    split; [exists 0%nat; cbn; now rewrite app_nil_r | reflexivity]. }
  cbv zeta.
  set (w2 := log (EvPrint (found_line (f :: rest)))
               (log (EvListdir input_folder) w1)).
  assert (opened (w_trace w2) = opened (w_trace w)) as Hw2.
  { unfold w2, log. cbn [w_trace]. rewrite !opened_app, Hw. cbn.
    now rewrite !app_nil_r. }
  assert (forall line w3,
             opened (w_trace (snd (print line w3))) = opened (w_trace w3))
    as Hsum.
  { intros line w3. unfold print, log. cbn [snd w_trace].
    rewrite opened_app. cbn. apply app_nil_r. }
  split.
  - destruct (sys_print (found_line (f :: rest)) (w_fs w1)) as [[]|e].
    + destruct (process_files_opened_prefix input_folder output_folder
                  size (f :: rest) 0 w2) as [k Hk].
      exists k.
      destruct (process_files input_folder output_folder size (f :: rest)
                  0 w2) as [[n|e] w3]; cbn [snd] in Hk.
      * rewrite Hsum, Hk, Hw2. reflexivity.
      * cbn [snd]. rewrite Hk, Hw2. reflexivity.
    + exists 0%nat. cbn [snd]. rewrite Hw2. cbn.
      now rewrite app_nil_r.
  - intros Hf Hp. rewrite Hf.
    destruct (transform_each_returns input_folder output_folder size
                (f :: rest) Hp w2) as (bs & w3 & Ht).
    pose proof (process_files_transform_each input_folder output_folder
                  size (f :: rest) 0 w2) as R.
    rewrite Ht in R. destruct R as (-> & _ & O).
    rewrite Hsum, O, Hw2. reflexivity.
Qed.

(** The calls of a run of the batch, whatever its outcome. *)
Lemma batch_events (input_folder output_folder : string)
  (size : Z * Z) (w : world fs) :
  exists evs,
    w_trace (snd (batch_process_images input_folder output_folder size w))
    = (w_trace w ++ evs)%list
    /\ Forall (batch_event input_folder output_folder size
                 (filter is_jpg
                    (listing input_folder
                       (w_fs (snd (ensure_output_folder output_folder
                                     w))))))
              evs.
Proof.
  rewrite batch_process_images_unfold.
  assert (forall w1 pre,
             w_trace w1 = (w_trace w ++ pre)%list ->
             Forall (batch_event input_folder output_folder size
                       (filter is_jpg (listing input_folder (w_fs w1))))
                    pre ->
             exists evs,
               w_trace (snd (list_and_process input_folder output_folder
                               size w1))
               = (w_trace w ++ evs)%list
               /\ Forall (batch_event input_folder output_folder size
                            (filter is_jpg
                               (listing input_folder (w_fs w1)))) evs)
    as K.
  { intros w1 pre Hpre Fpre.
    pose proof (list_and_process_run input_folder output_folder size w1)
      as R.
    unfold listing in *.
    destruct (sys_listdir input_folder (w_fs w1)) as [names|e].
    - destruct R as (r & fs' & evs & -> & F). cbn [snd w_trace].
      exists (pre ++ EvListdir input_folder :: evs)%list.
      rewrite Hpre, <- app_assoc. split; [reflexivity|].
      apply Forall_app. split; [exact Fpre|].
      constructor; [reflexivity|].
      eapply Forall_impl; [|exact F].
      intros ev. apply loop_event_is_batch_event.
    - rewrite R. cbn [snd]. unfold log. cbn [w_trace].
      exists (pre ++ [EvListdir input_folder])%list.
      rewrite Hpre, <- app_assoc. split; [reflexivity|].
      apply Forall_app. split; [exact Fpre|]. now repeat constructor. }
  rewrite ensure_output_folder_run.
  destruct (sys_exists output_folder (w_fs w)).
  - exact (K (World (w_fs w) (w_trace w ++ [EvExists output_folder]))
             [EvExists output_folder] eq_refl
             ltac:(now repeat constructor)).
  - destruct (sys_makedirs output_folder (w_fs w)) as [[[]|e] fs'].
    + destruct (sys_print ("Created output directory: " ++ output_folder)
                  fs') as [[]|e].
      * exact (K (World fs'
                    (w_trace w
                     ++ [EvExists output_folder; EvMakedirs output_folder;
                         EvPrint ("Created output directory: "
                                  ++ output_folder)]))
                 [EvExists output_folder; EvMakedirs output_folder;
                  EvPrint ("Created output directory: " ++ output_folder)]
                 eq_refl ltac:(now repeat constructor)).
      * cbn [snd w_trace].
        exists [EvExists output_folder; EvMakedirs output_folder;
                EvPrint ("Created output directory: " ++ output_folder)].
        split; [reflexivity | now repeat constructor].
    + cbn [snd w_trace].
      exists [EvExists output_folder; EvMakedirs output_folder].
      split; [reflexivity | now repeat constructor].
Qed.

(** X10: whatever its outcome, a run of the batch makes no call outside
    this list: it tests and creates the output folder only, lists the
    input folder only, opens selected names of the listing in the input
    folder only, crops with boxes of [crop_box] only, resizes to [size]
    with [LANCZOS] only, and saves as [PNG] to output paths of selected
    names only. *)
Theorem batch_calls_are_disciplined (input_folder output_folder : string)
  (size : Z * Z) (w : world fs) (ev : event) :
  In ev (w_trace (snd (batch_process_images input_folder output_folder size
                         w))) ->
  In ev (w_trace w)
  \/ batch_event input_folder output_folder size
       (filter is_jpg
          (listing input_folder
             (w_fs (snd (ensure_output_folder output_folder w)))))
       ev.
Proof.
  destruct (batch_events input_folder output_folder size w)
    as (evs & -> & F).
  rewrite in_app_iff. intros [Hin|Hin]; [now left | right].
  rewrite Forall_forall in F. exact (F _ Hin).
Qed.

(** X11: whatever its outcome, a run of the batch calls [os.makedirs] at
    most once: not at all when the output folder exists, and once, on the
    output folder, when it does not. *)
Theorem makedirs_only_when_missing (input_folder output_folder : string)
  (size : Z * Z) (w : world fs) :
  made (w_trace (snd (batch_process_images input_folder output_folder size
                        w)))
  = (made (w_trace w)
     ++ (if sys_exists output_folder (w_fs w) then []
         else [output_folder]))%list.
Proof.
  rewrite batch_process_images_unfold.
  assert (forall w1,
             made (w_trace (snd (list_and_process input_folder
                                   output_folder size w1)))
             = made (w_trace w1)) as K.
  { intros w1.
    pose proof (list_and_process_run input_folder output_folder size w1)
      as R.
    destruct (sys_listdir input_folder (w_fs w1)) as [names|e].
    - destruct R as (r & fs' & evs & -> & F). cbn [snd w_trace].
      rewrite made_app. cbn [made flat_map app]. fold (made evs).
      rewrite (loop_events_made _ _ _ _ _ F). apply app_nil_r.
    - rewrite R. cbn [snd]. unfold log. cbn [w_trace].
      rewrite made_app. cbn. apply app_nil_r. }
  rewrite ensure_output_folder_run.
  destruct (sys_exists output_folder (w_fs w)).
  - rewrite K. cbn [w_trace]. now rewrite made_app.
  - destruct (sys_makedirs output_folder (w_fs w)) as [[[]|e] fs'].
    + destruct (sys_print ("Created output directory: " ++ output_folder)
                  fs') as [[]|e].
      * rewrite K. cbn [w_trace]. now rewrite made_app.
      * cbn [snd w_trace]. now rewrite made_app.
    + cbn [snd w_trace]. now rewrite made_app.
Qed.

(** X12: [main] without an output folder (the option left out, or given
    empty) runs the batch on the subfolder [converted] of the input
    folder; an output folder that is given and not empty is used as it is;
    and in both cases every image is resized to the square
    [(size, size)] and saved as [PNG] under the output folder of
    [main]. *)
Theorem main_runs_batch_on_converted (a : args) (w : world fs) :
  (args_output_folder a = None \/ args_output_folder a = Some EmptyString ->
   main a w
   = batch_process_images (args_input_folder a)
       (join (args_input_folder a) "converted")
       (args_size a, args_size a) w)
  /\ (forall o, args_output_folder a = Some o -> o <> EmptyString ->
      main a w
      = batch_process_images (args_input_folder a) o
          (args_size a, args_size a) w)
  /\ (forall s flt,
        In (EvResize s flt) (w_trace (snd (main a w))) ->
        In (EvResize s flt) (w_trace w)
        \/ (s = (args_size a, args_size a) /\ flt = LANCZOS))
  /\ (forall p fmt,
        In (EvSave p fmt) (w_trace (snd (main a w))) ->
        In (EvSave p fmt) (w_trace w)
        \/ (fmt = "PNG"
            /\ exists f,
                 is_jpg f = true
                 /\ p = join (main_output_folder a)
                          (output_filename_of
                             (join (args_input_folder a) f)))).
Proof.
  unfold main, main_output_folder.
  split; [|split; [|split]].
  - intros [->| ->]; reflexivity.
  - intros o -> Hne.
    destruct (String.eqb_spec o EmptyString); [contradiction | reflexivity].
  - intros s flt.
    destruct (batch_events (args_input_folder a)
                (match args_output_folder a with
                 | Some s0 =>
                     if String.eqb s0 EmptyString
                     then join (args_input_folder a) "converted" else s0
                 | None => join (args_input_folder a) "converted"
                 end) (args_size a, args_size a) w)
      as (evs & -> & F).
    rewrite in_app_iff. intros [Hin|Hin]; [now left | right].
    rewrite Forall_forall in F. exact (F _ Hin).
  - intros p fmt.
    destruct (batch_events (args_input_folder a)
                (match args_output_folder a with
                 | Some s0 =>
                     if String.eqb s0 EmptyString
                     then join (args_input_folder a) "converted" else s0
                 | None => join (args_input_folder a) "converted"
                 end) (args_size a, args_size a) w)
      as (evs & -> & F).
    rewrite in_app_iff. intros [Hin|Hin]; [now left | right].
    rewrite Forall_forall in F. destruct (F _ Hin) as (-> & f & Hf & ->).
    split; [reflexivity|]. exists f.
    apply filter_In in Hf as [_ Hf]. now split.
Qed.

(** The lines of the loop on a standard output that takes every line: one
    per file, in order. *)
Lemma process_files_lines (input_folder output_folder : string)
  (size : Z * Z) (files : list string) :
  (forall line s, sys_print line s = Ok tt) ->
  forall (successful : Z) (w : world fs),
  exists n w' lines,
    process_files input_folder output_folder size files successful w
    = (Ok n, w')
    /\ printed (w_trace w') = (printed (w_trace w) ++ lines)%list
    /\ Forall2 (report_line input_folder) files lines.
Proof.
  intros Hall.
  induction files as [|f rest IH]; intros successful w.
  - exists successful, w, []. cbn. unfold ret. rewrite app_nil_r.
    repeat split. constructor.
  - cbn [process_files]. unfold bind.
    assert (exists b w1 line,
               process_image (join input_folder f) output_folder size w
               = (Ok b, w1)
               /\ printed (w_trace w1) = (printed (w_trace w) ++ [line])%list
               /\ report_line input_folder f line)
      as (b & w1 & line & -> & P & L).
    { unfold report_line.
      run_cases (join input_folder f) output_folder size w;
        try (rewrite Hall in Eh; discriminate Eh);
        try (rewrite Hall in Ep; discriminate Ep);
        eexists; eexists; eexists; (split; [reflexivity|]);
        unfold extend; cbn [w_trace]; rewrite printed_app;
        (split; [reflexivity|]); eauto. }
    destruct (IH (if b then successful + 1 else successful) w1)
      as (n & w' & lines & -> & P' & L').
    exists n, w', (line :: lines). rewrite P', P, <- app_assoc.
    repeat split. now constructor.
Qed.

(** X13: on a standard output that takes every line, when files have been
    selected, the batch prints the line with their number, then one line
    per selected file in the order of the listing, the line of a saved
    file or the line of an error, and last the summary. *)
Theorem batch_prints_one_line_per_file
  (input_folder output_folder : string) (size : Z * Z) (w w1 : world fs)
  (names : list string) :
  (forall line s, sys_print line s = Ok tt) ->
  ensure_output_folder output_folder w = (Ok tt, w1) ->
  sys_listdir input_folder (w_fs w1) = Ok names ->
  filter is_jpg names <> [] ->
  exists lines n,
    printed (w_trace (snd (batch_process_images input_folder output_folder
                             size w)))
    = (printed (w_trace w1)
       ++ found_line (filter is_jpg names) :: lines
       ++ [summary_line n
             (Z.of_nat (List.length (filter is_jpg names)))])%list
    /\ Forall2 (report_line input_folder) (filter is_jpg names) lines.
Proof.
  intros Hall He Hl Hne.
  rewrite (batch_after_listing _ _ _ _ _ _ He Hl).
  destruct (filter is_jpg names) as [|f rest]; [congruence|].
  cbv zeta. rewrite Hall.
  destruct (process_files_lines input_folder output_folder size (f :: rest)
              Hall 0 (log (EvPrint (found_line (f :: rest)))
                        (log (EvListdir input_folder) w1)))
    as (n & w' & lines & -> & P & L).
  exists lines, n. split; [|exact L].
  unfold print. cbn [snd]. unfold log in *. cbn [w_trace] in *.
  rewrite printed_app, P, !printed_app. cbn [printed flat_map app].
  rewrite app_nil_r, <- !app_assoc. reflexivity.
Qed.

(** X14: a target size that [resize] refuses for every image (as a size
    that is not positive) makes every file fail: when the error lines of
    the files can be printed, the loop returns with its counter unchanged,
    nothing is saved, and the file system is as it was. *)
Theorem refused_size_converts_nothing
  (input_folder output_folder : string) (size : Z * Z)
  (files : list string) (successful : Z) (w : world fs) :
  (forall c, exists e, sys_resize c size LANCZOS = Raise e) ->
  prints_errors input_folder files ->
  exists w',
    process_files input_folder output_folder size files successful w
    = (Ok successful, w')
    /\ w_fs w' = w_fs w
    /\ saved (w_trace w') = saved (w_trace w).
Proof.
  intros Hx. revert w. induction files as [|f rest IH]; intros w Hp.
  - exists w. now repeat split.
  - cbn [process_files]. unfold bind.
    assert (exists w1,
               process_image (join input_folder f) output_folder size w
               = (Ok false, w1)
               /\ w_fs w1 = w_fs w
               /\ saved (w_trace w1) = saved (w_trace w))
      as (w1 & -> & F1 & S1).
    { run_cases (join input_folder f) output_folder size w;
        try (destruct (Hx c) as [ex Hex]; congruence);
        try (rewrite (Hp f _ _ (or_introl eq_refl)) in Eh; discriminate Eh);
        eexists; (split; [reflexivity|]);
        unfold extend; cbn [w_fs w_trace]; rewrite saved_app;
        cbn; now rewrite app_nil_r. }
    destruct (IH w1 (fun f' e s0 Hin => Hp f' e s0 (or_intror Hin)))
      as (w' & -> & F' & S').
    exists w'. rewrite F', S', F1, S1. now repeat split.
Qed.

(** X15: a file that has been saved is counted as a failure when the line
    that reports it cannot be printed: if the four steps return but the
    print that follows them raises [e], and the error line of [e] can be
    printed, [process_image] returns [False], with the file saved. *)
Theorem saved_file_reported_as_failure
  (input_path output_folder : string) (size : Z * Z) (w : world fs)
  (opened_image cropped_image resized_image : image) (after : fs)
  (refusal : exn) :
  sys_open input_path (w_fs w) = Ok opened_image ->
  sys_crop opened_image
    (crop_box (fst (sys_size opened_image)) (snd (sys_size opened_image)))
  = Ok cropped_image ->
  sys_resize cropped_image size LANCZOS = Ok resized_image ->
  sys_save resized_image
    (join output_folder (output_filename_of input_path)) "PNG" (w_fs w)
  = (Ok tt, after) ->
  sys_print ("Processed: " ++ basename input_path ++ " → "
             ++ output_filename_of input_path) after = Raise refusal ->
  sys_print ("Error processing " ++ input_path ++ ": " ++ exn_str refusal)
    after = Ok tt ->
  fst (process_image input_path output_folder size w) = Ok false
  /\ w_fs (snd (process_image input_path output_folder size w)) = after
  /\ saved (w_trace (snd (process_image input_path output_folder size w)))
     = (saved (w_trace w)
        ++ [join output_folder (output_filename_of input_path)])%list.
Proof.
  intros Ho Hc Hr0 Hs Hp Hq.
  run_cases input_path output_folder size w;
    unfold box_of, output_path_of, processed_line, error_line in *;
    try (exfalso; congruence).
  match type of Es with
  | _ = (_, ?g) => assert (g = after) as -> by congruence
  end.
  cbn [fst snd]. unfold extend. cbn [w_fs w_trace].
  rewrite !saved_app. cbn [saved flat_map app]. now repeat split.
Qed.

(** A run of the body of [process_image] raises in one place only. *)
Lemma body_raises_deterministic (input_path output_folder : string)
  (size : Z * Z) (w : world fs) (e1 e2 : exn) (f1 f2 : fs)
  (v1 v2 : list event) :
  body_raises input_path output_folder size w e1 f1 v1 ->
  body_raises input_path output_folder size w e2 f2 v2 ->
  e1 = e2 /\ f1 = f2 /\ v1 = v2.
Proof.
  intros B1 B2.
  destruct B1; destruct B2; unfold box_of, output_path_of in *;
    try (exfalso; congruence);
    repeat match goal with
           | A : ?t = Ok ?a, B : ?t = Ok ?b |- _ =>
               assert (a = b) by congruence; subst b; clear B
           end;
    repeat split; congruence.
Qed.

(** The body of [process_image] does not both return and raise. *)
Lemma body_returns_or_raises (input_path output_folder : string)
  (size : Z * Z) (w : world fs) (e1 : exn) (f1 f2 : fs) (v1 : list event)
  (img c r : image) :
  body_raises input_path output_folder size w e1 f1 v1 ->
  sys_open input_path (w_fs w) = Ok img ->
  sys_crop img (box_of img) = Ok c ->
  sys_resize c size LANCZOS = Ok r ->
  sys_save r (output_path_of input_path output_folder) "PNG" (w_fs w)
  = (Ok tt, f2) ->
  sys_print (processed_line input_path) f2 = Ok tt ->
  False.
Proof.
  intros B1 Eo Ec Er Es Ep.
  destruct B1; unfold box_of, output_path_of in *;
    try congruence;
    repeat match goal with
           | A : ?t = Ok ?a, B : ?t = Ok ?b |- _ =>
               assert (a = b) by congruence; subst b; clear B
           end;
    congruence.
Qed.

(** [run_of] describes one outcome. *)
Lemma run_of_deterministic (input_path output_folder : string)
  (size : Z * Z) (w : world fs) (x y : result bool * world fs) :
  run_of input_path output_folder size w x ->
  run_of input_path output_folder size w y ->
  x = y.
Proof.
  intros Rx Ry.
  destruct Rx as [i1 c1 r1 g1 Eo1 Ec1 Er1 Es1 Ep1 | e1 g1 v1 B1 Eh1
                 | e1 g1 v1 x1 B1 Eh1];
    destruct Ry as [i2 c2 r2 g2 Eo2 Ec2 Er2 Es2 Ep2 | e2 g2 v2 B2 Eh2
                   | e2 g2 v2 x2 B2 Eh2];
    try (exfalso; eapply body_returns_or_raises; eassumption);
    try (destruct (body_raises_deterministic _ _ _ _ _ _ _ _ _ _ B1 B2)
           as (-> & -> & ->));
    congruence.
Qed.

(** X16: when the body of [process_image] raises [e] on the first file of
    the list and the error line of [e] cannot be printed, the exception
    [e'] of that print leaves [process_image] and the loop: the loop
    raises [e'] and the other files are not opened. *)
Theorem unprintable_error_line_stops_loop
  (input_folder output_folder : string) (size : Z * Z) (f : string)
  (rest : list string) (successful : Z) (w : world fs) (e e' : exn)
  (fs' : fs) (evs : list event) :
  body_raises (join input_folder f) output_folder size w e fs' evs ->
  sys_print (error_line (join input_folder f) e) fs' = Raise e' ->
  process_files input_folder output_folder size (f :: rest) successful w
  = (Raise e',
     World fs'
       (w_trace w ++ evs
        ++ [EvPrint (error_line (join input_folder f) e)]))
  /\ opened (w_trace w ++ evs
             ++ [EvPrint (error_line (join input_folder f) e)])
     = (opened (w_trace w) ++ [join input_folder f])%list.
Proof.
  intros B Hp.
  assert (process_image (join input_folder f) output_folder size w
          = (Raise e',
             World fs'
               (w_trace w ++ evs
                ++ [EvPrint (error_line (join input_folder f) e)]))) as E.
  { exact (run_of_deterministic _ _ _ _ _ _
             (process_image_run (join input_folder f) output_folder size w)
             (RunEscapes _ _ _ _ e fs' evs e' B Hp)). }
  split.
  - cbn [process_files]. unfold bind. now rewrite E.
  - pose proof (process_image_opens (join input_folder f) output_folder
                  size w) as O.
    rewrite E in O. exact O.
Qed.

End Calls.

(** ** The calls of a run, on concrete folders *)

Lemma process_image_false_only_when_body_raises_witness :
  exists e fs' evs,
    body_raises "photos/bad.jpg" "out" (500, 500)
      (MemFS.start MemFS.photos) e fs' evs
    /\ sys_print (error_line "photos/bad.jpg" e) fs' = Ok tt
    /\ snd (process_image "photos/bad.jpg" "out" (500, 500)
              (MemFS.start MemFS.photos))
       = World fs' ([] ++ evs ++ [EvPrint (error_line "photos/bad.jpg" e)])
    /\ (saved (w_trace (snd (process_image "photos/bad.jpg" "out"
                               (500, 500) (MemFS.start MemFS.photos))))
        = [] ->
        fs' = MemFS.photos).
Proof.
  exact (process_image_false_only_when_body_raises "photos/bad.jpg" "out"
           (500, 500) (MemFS.start MemFS.photos) eq_refl).
Defined.

Lemma listdir_failure_propagates_witness :
  fst (batch_process_images "missing" "out" (500, 500)
         (MemFS.start MemFS.photos))
  = Raise (PyException "[Errno 2] No such file or directory: 'missing'")
  /\ sys_exists "out" MemFS.photos = false
  /\ sys_exists "out"
       (w_fs (snd (batch_process_images "missing" "out" (500, 500)
                     (MemFS.start MemFS.photos)))) = true.
Proof.
  destruct (listdir_failure_propagates "missing" "out" (500, 500)
              (MemFS.start MemFS.photos)
              (snd (ensure_output_folder "out" (MemFS.start MemFS.photos)))
              (PyException "[Errno 2] No such file or directory: 'missing'"))
    as (E & _ & _).
  - vm_compute. reflexivity.
  - vm_compute. reflexivity.
  - rewrite E. repeat split.
Defined.

Lemma batch_opens_selected_in_order_witness :
  opened (w_trace (snd (batch_process_images "photos" "out" (500, 500)
                          (MemFS.start MemFS.photos))))
  = ["photos/a.jpg"; "photos/b.JPG"; "photos/bad.jpg"; "photos/c.jpeg"].
Proof.
  destruct (batch_opens_selected_in_order "photos" "out" (500, 500)
              (MemFS.start MemFS.photos)
              (snd (ensure_output_folder "out" (MemFS.start MemFS.photos)))
              ["a.jpg"; "notes.txt"; "b.JPG"; "bad.jpg"; "c.jpeg"])
    as [_ K].
  - vm_compute. reflexivity.
  - vm_compute. reflexivity.
  - apply K; [reflexivity | intros f e s _; reflexivity].
Defined.

Lemma batch_calls_are_disciplined_witness :
  In (EvSave "out/b.png" "PNG") []
  \/ batch_event "photos" "out" (500, 500)
       ["a.jpg"; "b.JPG"; "bad.jpg"; "c.jpeg"]
       (EvSave "out/b.png" "PNG").
Proof.
  assert (In (EvSave "out/b.png" "PNG")
            (w_trace (snd (batch_process_images "photos" "out" (500, 500)
                             (MemFS.start MemFS.photos))))) as Hin
      by (vm_compute; do 13 right; left; reflexivity).
  exact (batch_calls_are_disciplined "photos" "out" (500, 500)
           (MemFS.start MemFS.photos) (EvSave "out/b.png" "PNG") Hin).
Defined.

Lemma batch_prints_one_line_per_file_witness :
  exists lines n,
    printed (w_trace (snd (batch_process_images "photos" "out" (500, 500)
                             (MemFS.start MemFS.photos))))
    = (printed (w_trace (snd (ensure_output_folder "out"
                                (MemFS.start MemFS.photos))))
       ++ found_line
            (filter is_jpg
               ["a.jpg"; "notes.txt"; "b.JPG"; "bad.jpg"; "c.jpeg"])
          :: lines
       ++ [summary_line n
             (Z.of_nat
                (List.length
                   (filter is_jpg
                      ["a.jpg"; "notes.txt"; "b.JPG"; "bad.jpg";
                       "c.jpeg"])))])%list
    /\ Forall2 (report_line "photos")
         (filter is_jpg ["a.jpg"; "notes.txt"; "b.JPG"; "bad.jpg"; "c.jpeg"])
         lines.
Proof.
  apply (batch_prints_one_line_per_file "photos" "out" (500, 500)
           (MemFS.start MemFS.photos)
           (snd (ensure_output_folder "out" (MemFS.start MemFS.photos)))
           ["a.jpg"; "notes.txt"; "b.JPG"; "bad.jpg"; "c.jpeg"]).
  - intros line s. reflexivity.
  - vm_compute. reflexivity.
  - vm_compute. reflexivity.
  - vm_compute. discriminate.
Defined.

Lemma refused_size_converts_nothing_witness :
  exists w',
    process_files "photos" "out" (0, 0) ["a.jpg"; "b.JPG"] 0
      (MemFS.start MemFS.photos)
    = (Ok 0, w')
    /\ w_fs w' = w_fs (MemFS.start MemFS.photos)
    /\ saved (w_trace w') = saved (w_trace (MemFS.start MemFS.photos)).
Proof.
  apply (refused_size_converts_nothing "photos" "out" (0, 0)
           ["a.jpg"; "b.JPG"] 0 (MemFS.start MemFS.photos)).
  - intros c. eexists. reflexivity.
  - intros f e s _. reflexivity.
Defined.

Lemma saved_file_reported_as_failure_witness :
  fst (@process_image _ _ MemFS.platform_ascii "photos/a.jpg" "out"
         (500, 500) (MemFS.start MemFS.photos)) = Ok false
  /\ MemFS.written
       (w_fs (snd (@process_image _ _ MemFS.platform_ascii "photos/a.jpg"
                     "out" (500, 500) (MemFS.start MemFS.photos))))
     = ["out/a.png"].
Proof.
  destruct (@saved_file_reported_as_failure _ _ MemFS.platform_ascii
              "photos/a.jpg" "out" (500, 500) (MemFS.start MemFS.photos)
              (800, 600) (600, 600) (500, 500)
              (MemFS.Make (MemFS.dirs MemFS.photos)
                 (MemFS.images MemFS.photos) [] ["out/a.png"])
              (PyException
                 ("'ascii' codec can't encode character '\u2192' "
                  ++ "in position 17: ordinal not in range(128)")))
    as (R & F & _); try (vm_compute; reflexivity).
  split; [exact R|]. rewrite F. reflexivity.
Defined.

Lemma unprintable_error_line_stops_loop_witness :
  @process_files _ _ MemFS.platform_ascii "photos" "out" (500, 500)
    ["café.jpg"; "a.jpg"] 0 (MemFS.start MemFS.cafe)
  = (Raise (PyException
              ("'ascii' codec can't encode character '\xe9' "
               ++ "in position 27: ordinal not in range(128)")),
     World MemFS.cafe
       ([] ++ [EvOpen "photos/café.jpg"]
        ++ [EvPrint
              (@error_line "photos/café.jpg"
                 (PyException
                    "cannot identify image file 'photos/café.jpg'"))])).
Proof.
  refine (proj1 (@unprintable_error_line_stops_loop _ _
                   MemFS.platform_ascii "photos" "out" (500, 500)
                   "café.jpg" ["a.jpg"] 0 (MemFS.start MemFS.cafe)
                   (PyException
                      "cannot identify image file 'photos/café.jpg'")
                   (PyException
                      ("'ascii' codec can't encode character '\xe9' "
                       ++ "in position 27: ordinal not in range(128)"))
                   MemFS.cafe [EvOpen "photos/café.jpg"] _ _)).
  - apply (@BodyOpen _ _ MemFS.platform_ascii). reflexivity.
  - vm_compute. reflexivity.
Defined.
